(** * Verification of the monitoring core (src/monitoring.py)

    A shallow embedding of [MetricsCollector] and [RequestLogger]: the bounded
    request window, the per-endpoint running aggregates, [get_stats],
    [get_health_status] and [log_request]. The module-level functions
    [get_monitoring_stats], [get_health_check] and [log_request_metrics] are
    these methods on the global collector.

    Modelling conventions
    - A Python [int] is a [Z]. A Python [float] is the rational number that
      its binary64 value denotes, a [Q]. Every operation on floats rounds its
      exact result to binary64 ([Num.b64]: to the nearest, ties to the even
      significand, with gradual underflow); [round(x, n)] rounds the value of
      [x] to [n] decimals, ties to even, and the result to binary64. A
      literal such as [0.1] is the binary64 number nearest to it. Numbers are
      compared with [Qeq], as [==] compares them in Python.
    - A naive [datetime] is the number of microseconds since an arbitrary
      origin, a [timedelta] the signed difference of two of them.
    - [datetime.now()] reads the next value of an oracle [wall : nat -> Z];
      nothing is assumed about the oracle (local time may jump backwards).
    - A [deque(maxlen=n)] is its list of items, oldest first, with its bound.
    - The [defaultdict] of per-endpoint dictionaries is a [gmap] from the
      key string to a record with the four fixed keys. The order in which
      [items()] yields the entries is not kept; no result depends on it.
    - A log line is its level and the template that produced it, with the
      interpolated values; the rendering of numbers into text is left out.
    - The methods run in a state-and-exception monad over the collector, the
      clock and the log, so that "does not raise" and "does not mutate" are
      statements to prove and not consequences of a type.

    - [SystemMonitor.start_monitoring] and the middleware are coroutines:
      their code runs uninterrupted between two [await]s, and what other
      tasks do during an [await] is given as part of the input.

    Outside the model: the infinities and NaNs of binary64, that is, results
    of magnitude 2^1024 and more; capacities that do not fit a machine
    integer (below -2^63 or from 2^63 on), which [deque] refuses; the
    cancellation of tasks, threads, and failures of the logging library.

    Outline: the program; the vocabulary of the specification; closed forms
    of what the methods compute; the monitor and the middleware; proofs; the
    claims C1 to C10; further properties X1 to X21. *)

From Stdlib Require Import ZArith QArith Qround Qabs Qpower Lia Lqa List Ascii.
From stdpp Require Import base gmap strings list fin_maps pretty.

Local Open Scope Z_scope.


(** * The program *)

(** ** Numbers *)

Module Num.

(** Nearest integer, ties to the even neighbour. *)
Definition round_half_even (x : Q) : Z :=
  let f := Qfloor x in
  match Qcompare (x - inject_Z f) (1 # 2) with
  | Lt => f
  | Gt => f + 1
  | Eq => if Z.even f then f else f + 1
  end.

(** The exponent of the leading binary digit of a number other than 0:
    the integer part of its logarithm to the base 2. *)
Definition ilog2 (x : Q) : Z :=
  let l := Z.log2 (Z.abs (Qnum x)) - Z.log2 (Zpos (Qden x)) in
  if Qle_bool (2 ^ l) (Qabs x) then l else l - 1.

(** The exponent of the unit in the last place that binary64 has at [x]:
    53 significant digits, and no unit below 2^-1074. *)
Definition ulp_exponent (x : Q) : Z := Z.max (ilog2 x - 52) (-1074).

(** [x] rounded to binary64: the nearest multiple of the unit in the last
    place, ties to the even multiple. *)
Definition b64 (x : Q) : Q :=
  let x := Qred x in
  if Qeq_bool x 0 then 0%Q
  else (inject_Z (round_half_even (x / 2 ^ ulp_exponent x)) * 2 ^ ulp_exponent x)%Q.

(** [x + y], [x * y] and [x / y] on floats, an [int] operand being
    converted first; [a / b] on two [int]s is the quotient rounded once. *)
Definition add (x y : Q) : Q := b64 (x + y).
Definition mul (x y : Q) : Q := b64 (x * y).
Definition div (x y : Q) : Q := b64 (x / y).

(** [float(n)] *)
Definition of_int (n : Z) : Q := b64 (inject_Z n).

(** [int(x)]: truncation towards zero. *)
Definition trunc (x : Q) : Z := if Qle_bool 0 x then Qfloor x else Qceiling x.

Definition pow10 (n : nat) : Z := 10 ^ Z.of_nat n.

(** [round(x, ndigits)]: the decimal with [ndigits] digits nearest to the
    value of [x], ties to even, read back as a float. *)
Definition py_round (x : Q) (ndigits : nat) : Q :=
  b64 (inject_Z (round_half_even (x * inject_Z (pow10 ndigits)))
       / inject_Z (pow10 ndigits)).

(** [sum(xs)]: left to right, starting from [0], one addition per item, as
    CPython computes it up to version 3.11 (later versions also carry a
    correction term for the rounding errors). *)
Definition py_sum (xs : list Q) : Q := fold_left add xs 0%Q.

(** [x > y] on numbers. *)
Definition gtb (x y : Q) : bool := negb (Qle_bool x y).

End Num.

(** ** Exceptions *)

Inductive PyError : Type :=
| ValueError
| ZeroDivisionError
| IndexError.

Inductive Result (A : Type) : Type :=
| Ok (a : A)
| Raise (e : PyError).
Arguments Ok {A} a.
Arguments Raise {A} e.

(** ** Sample types *)

Definition datetime := Z.
Definition timedelta := Z.

Record RequestMetrics : Type := mkRequestMetrics {
  endpoint : string;
  method : string;
  status_code : Z;
  response_time : Q;
  timestamp : datetime;
  user_agent : option string;
  ip_address : option string;
  error_message : option string
}.

Record SystemMetrics : Type := mkSystemMetrics {
  cpu_percent : Q;
  memory_percent : Q;
  memory_used_mb : Q;
  memory_available_mb : Q;
  disk_usage_percent : Q;
  sys_timestamp : datetime
}.

(** The value dictionary of [endpoint_stats]:
    [{'count': 0, 'total_time': 0, 'errors': 0, 'last_called': None}]. *)
Record EndpointStats : Type := mkEndpointStats {
  count : Z;
  total_time : Q;
  errors : Z;
  last_called : option datetime
}.

Definition default_endpoint_stats : EndpointStats :=
  {| count := 0; total_time := 0%Q; errors := 0; last_called := None |}.

(** ** Bounded deque *)

Record deque (A : Type) : Type := mkDeque {
  items : list A;
  maxlen : Z
}.
Arguments mkDeque {A} items maxlen.
Arguments items {A} d.
Arguments maxlen {A} d.

(** [deque(maxlen=n)] raises [ValueError] for a negative bound. Bounds
    that do not fit a machine integer, below -2^63 or from 2^63 on, which
    [deque] refuses with [OverflowError], are not modelled. *)
Definition deque_new {A : Type} (n : Z) : Result (deque A) :=
  if n <? 0 then Raise ValueError else Ok (mkDeque [] n).

(** [d.append(x)]: the item goes to the right end; when the length then
    exceeds the bound, the leftmost item is dropped. *)
Definition deque_append {A : Type} (d : deque A) (x : A) : deque A :=
  let l := items d ++ [x] in
  if maxlen d <? Z.of_nat (length l) then mkDeque (tail l) (maxlen d)
  else mkDeque l (maxlen d).

(** [d[-1]] *)
Definition deque_last {A : Type} (d : deque A) : Result A :=
  match last (items d) with
  | Some x => Ok x
  | None => Raise IndexError
  end.

(** [bool(d)] *)
Definition deque_nonempty {A : Type} (d : deque A) : bool :=
  match items d with [] => false | _ :: _ => true end.

(** ** Log sink

    A log line is the level together with the f-string that produced it: one
    constructor per template of the source, carrying the interpolated
    arguments ([{x:.3f}] and [{x:.1f}] arguments are carried unformatted). *)

Inductive Level : Type := INFO | WARNING | ERROR.

Inductive Message : Type :=
| Msg_request (m e : string) (sc : Z) (rt : Q)
| Msg_high_cpu_usage (cpu : Q)
| Msg_high_memory_usage (mem : Q)
| Msg_server_error (m e : string) (sc : Z) (err : option string)
| Msg_client_error (m e : string) (sc : Z)
| Msg_slow_request (m e : string) (rt : Q).

Record LogRecord : Type := mkLogRecord {
  level : Level;
  message : Message
}.

(** ** Collector state and the monad of the methods *)

Record MetricsCollector : Type := mkMetricsCollector {
  max_requests : Z;
  requests : deque RequestMetrics;
  system_metrics : deque SystemMetrics;
  endpoint_stats : gmap string EndpointStats;
  start_time : datetime
}.

(** What the process offers besides the collector: the module's [logger]
    and the wall clock. [reads] counts the calls of [datetime.now()]. *)
Record World : Type := mkWorld {
  log : list LogRecord;
  wall : nat -> datetime;
  reads : nat
}.

Record State : Type := mkState {
  self : MetricsCollector;
  world : World
}.

Definition M (S A : Type) : Type := S -> Result (A * S).

Definition ret {S A : Type} (a : A) : M S A := fun s => Ok (a, s).

Definition bind {S A B : Type} (m : M S A) (k : A -> M S B) : M S B :=
  fun s => match m s with
           | Ok (a, s') => k a s'
           | Raise e => Raise e
           end.

Notation "'let*' x ':=' m 'in' k" := (bind m (fun x => k))
  (at level 10, x name, m at level 100, k at level 200).
Notation "m ';;' k" := (bind m (fun _ => k))
  (at level 100, k at level 200, right associativity).

(** An exception-only computation used inside a stateful one. *)
Definition try {S A : Type} (r : Result A) : M S A :=
  fun s => match r with Ok a => Ok (a, s) | Raise e => Raise e end.

(** A process-level effect performed from a method. *)
Definition lift {A : Type} (m : M World A) : M State A :=
  fun s => match m (world s) with
           | Ok (a, w) => Ok (a, mkState (self s) w)
           | Raise e => Raise e
           end.

Definition get_self : M State MetricsCollector := fun s => Ok (self s, s).

Definition modify_self (f : MetricsCollector -> MetricsCollector) : M State unit :=
  fun s => Ok (tt, mkState (f (self s)) (world s)).

(** [datetime.now()] *)
Definition datetime_now : M World datetime :=
  fun w => Ok (wall w (reads w), mkWorld (log w) (wall w) (S (reads w))).

(** [logger.info(..)], [logger.warning(..)], [logger.error(..)] *)
Definition logger_emit (lv : Level) (msg : Message) : M World unit :=
  fun w => Ok (tt, mkWorld (log w ++ [mkLogRecord lv msg]) (wall w) (reads w)).

(** [x / y] *)
Definition py_div (x y : Q) : Result Q :=
  if Qeq_bool y 0 then Raise ZeroDivisionError else Ok (Num.div x y).

(** [len(l)] as a number. *)
Definition len {A : Type} (l : list A) : Z := Z.of_nat (length l).

(** ** MetricsCollector *)

(** [MetricsCollector.__init__] *)
Definition __init__ (max_requests : Z) : M World MetricsCollector :=
  let* rq := try (deque_new max_requests) in
  let* sm := try (deque_new 100) in
  let* now := datetime_now in
  ret {| max_requests := max_requests;
         requests := rq;
         system_metrics := sm;
         endpoint_stats := ∅;
         start_time := now |}.

Definition default_max_requests : Z := 1000.

(** [f"{metrics.method} {metrics.endpoint}"] *)
Definition endpoint_key (m e : string) : string := m +:+ " " +:+ e.

Definition set_requests (rq : deque RequestMetrics) (c : MetricsCollector) :=
  {| max_requests := max_requests c; requests := rq;
     system_metrics := system_metrics c; endpoint_stats := endpoint_stats c;
     start_time := start_time c |}.

Definition set_system_metrics (sm : deque SystemMetrics) (c : MetricsCollector) :=
  {| max_requests := max_requests c; requests := requests c;
     system_metrics := sm; endpoint_stats := endpoint_stats c;
     start_time := start_time c |}.

Definition set_endpoint_stats (es : gmap string EndpointStats) (c : MetricsCollector) :=
  {| max_requests := max_requests c; requests := requests c;
     system_metrics := system_metrics c; endpoint_stats := es;
     start_time := start_time c |}.

(** [self.endpoint_stats[key]] on the [defaultdict]: a missing key is
    created with the default dictionary. *)
Definition endpoint_stats_getitem (key : string) : M State EndpointStats :=
  let* c := get_self in
  match endpoint_stats c !! key with
  | Some st => ret st
  | None =>
      modify_self (set_endpoint_stats (<[key := default_endpoint_stats]> (endpoint_stats c)));;
      ret default_endpoint_stats
  end.

(** In-place update of the dictionary [stats] obtained for [key]. *)
Definition endpoint_stats_store (key : string) (st : EndpointStats) : M State unit :=
  modify_self (fun c => set_endpoint_stats (<[key := st]> (endpoint_stats c)) c).

(** [MetricsCollector.add_request]. In the source [stats] aliases the
    table entry and each assignment reaches the table at once; here the four
    assignments are made on the value read and written back together, no
    other code running in between. *)
Definition add_request (metrics : RequestMetrics) : M State unit :=
  modify_self (fun c => set_requests (deque_append (requests c) metrics) c);;
  let endpoint_key := endpoint_key (method metrics) (endpoint metrics) in
  let* stats := endpoint_stats_getitem endpoint_key in
  let stats := {| count := count stats + 1;
                  total_time := total_time stats;
                  errors := errors stats;
                  last_called := last_called stats |} in
  let stats := {| count := count stats;
                  total_time := Num.add (total_time stats) (response_time metrics);
                  errors := errors stats;
                  last_called := last_called stats |} in
  let stats := {| count := count stats;
                  total_time := total_time stats;
                  errors := errors stats;
                  last_called := Some (timestamp metrics) |} in
  let stats := if 400 <=? status_code metrics
               then {| count := count stats;
                       total_time := total_time stats;
                       errors := errors stats + 1;
                       last_called := last_called stats |}
               else stats in
  endpoint_stats_store endpoint_key stats;;
  lift (logger_emit INFO (Msg_request (method metrics) (endpoint metrics)
                            (status_code metrics) (response_time metrics))).

(** [MetricsCollector.add_system_metrics] *)
Definition add_system_metrics (metrics : SystemMetrics) : M State unit :=
  modify_self (fun c => set_system_metrics (deque_append (system_metrics c) metrics) c);;
  (if Num.gtb (cpu_percent metrics) 80
   then lift (logger_emit WARNING (Msg_high_cpu_usage (cpu_percent metrics)))
   else ret tt);;
  (if Num.gtb (memory_percent metrics) 80
   then lift (logger_emit WARNING (Msg_high_memory_usage (memory_percent metrics)))
   else ret tt).

(** ** get_stats *)

(** One value of the [endpoints] dictionary of the result. *)
Record EndpointSummary : Type := mkEndpointSummary {
  calls : Z;
  avg_response_time : Q;
  error_rate : Q;
  summary_last_called : option datetime
}.

(** The dictionary returned by [get_stats]. [current_system] is the
    [asdict] of the latest snapshot; the two time stamps stand for their
    [isoformat()] strings. *)
Record Stats : Type := mkStats {
  uptime_seconds : Z;
  uptime_human : string;
  total_requests : Z;
  recent_requests_5min : Z;
  error_rate_percent : Q;
  avg_response_time_ms : Q;
  current_system : option SystemMetrics;
  endpoints : gmap string EndpointSummary;
  stats_timestamp : datetime
}.

Definition two_digits (n : Z) : string :=
  if n <? 10 then "0" +:+ pretty n else pretty n.

(** [str(td).split('.')[0]]: the days, if any, and [H:MM:SS]; the
    fractional part that [str] prints after a dot is cut off. *)
Definition timedelta_str_head (td : timedelta) : string :=
  let days := td / 86400000000 in
  let seconds := (td mod 86400000000) / 1000000 in
  let mm := seconds / 60 in
  let ss := seconds mod 60 in
  let hh := mm / 60 in
  let mm := mm mod 60 in
  let s := pretty hh +:+ ":" +:+ two_digits mm +:+ ":" +:+ two_digits ss in
  if days =? 0 then s
  else pretty days +:+ " day" +:+ (if Z.abs days =? 1 then "" else "s") +:+ ", " +:+ s.

(** [int(td.total_seconds())]: the microseconds divided by [10**6] as a
    float, then truncated. *)
Definition timedelta_int_seconds (td : timedelta) : Z :=
  Num.trunc (Num.div (inject_Z td) 1000000).

(** [timedelta(minutes=5)] *)
Definition five_minutes : timedelta := 300000000.

(** The body of [for endpoint, stats in self.endpoint_stats.items()]. *)
Fixpoint endpoint_loop (its : list (string * EndpointStats))
    (endpoint_summary : gmap string EndpointSummary)
    : M State (gmap string EndpointSummary) :=
  match its with
  | [] => ret endpoint_summary
  | (endpoint, stats) :: its' =>
      let* avg_time :=
        (if 0 <? count stats
         then try (py_div (total_time stats) (Num.of_int (count stats)))
         else ret 0%Q) in
      let* error_rate_endpoint :=
        (if 0 <? count stats
         then try (py_div (inject_Z (errors stats)) (inject_Z (count stats)))
         else ret 0%Q) in
      endpoint_loop its'
        (<[endpoint := {| calls := count stats;
                          avg_response_time := Num.py_round avg_time 3;
                          error_rate := Num.py_round (Num.mul error_rate_endpoint 100) 2;
                          summary_last_called := last_called stats |}]>
           endpoint_summary)
  end.

(** [MetricsCollector.get_stats] *)
Definition get_stats : M State Stats :=
  let* now := lift datetime_now in
  let* c := get_self in
  let uptime := now - start_time c in
  let total_requests := len (items (requests c)) in
  let recent_requests :=
    List.filter (fun r => now - timestamp r <? five_minutes) (items (requests c)) in
  let error_requests :=
    List.filter (fun r => 400 <=? status_code r) (items (requests c)) in
  let* error_rate :=
    (if 0 <? total_requests
     then try (py_div (inject_Z (len error_requests)) (inject_Z total_requests))
     else ret 0%Q) in
  let response_times := List.map response_time (items (requests c)) in
  let* avg_response_time :=
    (match response_times with
     | _ :: _ => try (py_div (Num.py_sum response_times)
                             (Num.of_int (len response_times)))
     | [] => ret 0%Q
     end) in
  let* current_system :=
    (if deque_nonempty (system_metrics c)
     then let* m := try (deque_last (system_metrics c)) in ret (Some m)
     else ret None) in
  let* endpoint_summary := endpoint_loop (map_to_list (endpoint_stats c)) ∅ in
  ret {| uptime_seconds := timedelta_int_seconds uptime;
         uptime_human := timedelta_str_head uptime;
         total_requests := total_requests;
         recent_requests_5min := len recent_requests;
         error_rate_percent := Num.py_round (Num.mul error_rate 100) 2;
         avg_response_time_ms := Num.py_round (Num.mul avg_response_time 1000) 2;
         current_system := current_system;
         endpoints := endpoint_summary;
         stats_timestamp := now |}.

(** ** get_health_status *)

(** The four issue templates, each with the number it prints. *)
Inductive Issue : Type :=
| High_error_rate (pct : Q)
| Slow_response_time (ms : Q)
| High_CPU (pct : Q)
| High_memory (pct : Q).

Record Health : Type := mkHealth {
  status : string;
  issues : list Issue;
  uptime : string;
  health_total_requests : Z;
  health_timestamp : datetime
}.

(** [MetricsCollector.get_health_status] *)
Definition get_health_status : M State Health :=
  let* stats := get_stats in
  let health_issues := [] in
  let health_issues :=
    if Num.gtb (error_rate_percent stats) 10
    then health_issues ++ [High_error_rate (error_rate_percent stats)]
    else health_issues in
  let health_issues :=
    if Num.gtb (avg_response_time_ms stats) 5000
    then health_issues ++ [Slow_response_time (avg_response_time_ms stats)]
    else health_issues in
  let health_issues :=
    match current_system stats with
    | Some sys =>
        let health_issues :=
          if Num.gtb (cpu_percent sys) 90
          then health_issues ++ [High_CPU (cpu_percent sys)]
          else health_issues in
        if Num.gtb (memory_percent sys) 90
        then health_issues ++ [High_memory (memory_percent sys)]
        else health_issues
    | None => health_issues
    end in
  let status :=
    match health_issues with
    | [] => "healthy"
    | _ :: _ => if len health_issues <? 3 then "degraded" else "unhealthy"
    end in
  let* now := lift datetime_now in
  ret {| status := status;
         issues := health_issues;
         uptime := uptime_human stats;
         health_total_requests := total_requests stats;
         health_timestamp := now |}.

(** ** RequestLogger *)

(** [RequestLogger.log_request], on the collector the logger was built with. *)
Definition log_request (endpoint method : string) (status_code : Z)
    (response_time : Q) (user_agent ip_address error_message : option string)
    : M State unit :=
  let* now := lift datetime_now in
  let metrics := mkRequestMetrics endpoint method status_code response_time now
                   user_agent ip_address error_message in
  add_request metrics;;
  if 500 <=? status_code
  then lift (logger_emit ERROR (Msg_server_error method endpoint status_code error_message))
  else if 400 <=? status_code
  then lift (logger_emit WARNING (Msg_client_error method endpoint status_code))
  else if Num.gtb response_time 10
  then lift (logger_emit WARNING (Msg_slow_request method endpoint response_time))
  else ret tt.

(** ** Sessions: a collector is built, then used *)

Inductive Op : Type :=
| Add_request (metrics : RequestMetrics)
| Add_system_metrics (metrics : SystemMetrics)
| Get_stats
| Get_health_status
| Log_request (endpoint method : string) (status_code : Z) (response_time : Q)
    (user_agent ip_address error_message : option string).

Definition exec (o : Op) : M State unit :=
  match o with
  | Add_request metrics => add_request metrics
  | Add_system_metrics metrics => add_system_metrics metrics
  | Get_stats => get_stats;; ret tt
  | Get_health_status => get_health_status;; ret tt
  | Log_request e m sc rt ua ip err => log_request e m sc rt ua ip err
  end.

Fixpoint run (ops : list Op) : M State unit :=
  match ops with
  | [] => ret tt
  | o :: ops' => exec o;; run ops'
  end.

(** [c = MetricsCollector(n)] followed by the calls [ops] on [c]. *)
Definition session (n : Z) (ops : list Op) (w : World) : Result State :=
  match __init__ n w with
  | Ok (c, w') =>
      match run ops (mkState c w') with
      | Ok (_, s) => Ok s
      | Raise e => Raise e
      end
  | Raise e => Raise e
  end.

(** The world as [MetricsCollector(n)] leaves it: one clock reading made. *)
Definition after_init (w : World) : World :=
  mkWorld (log w) (wall w) (S (reads w)).

(** The number of clock readings an operation makes. *)
Definition clock_reads (o : Op) : nat :=
  match o with
  | Add_request _ | Add_system_metrics _ => 0
  | Get_stats | Log_request _ _ _ _ _ _ _ => 1
  | Get_health_status => 2
  end.

(** The samples an operation hands to [add_request] when it starts in the
    world [w]: [log_request] stamps its sample with the clock reading that
    it makes first. *)
Definition inserted_by (o : Op) (w : World) : list RequestMetrics :=
  match o with
  | Add_request metrics => [metrics]
  | Log_request e m sc rt ua ip err =>
      [mkRequestMetrics e m sc rt (wall w (reads w)) ua ip err]
  | _ => []
  end.

(** All samples inserted by [ops], oldest first, when the first operation
    starts in a world with clock [wl] after [k] readings. *)
Fixpoint inserted_from (wl : nat -> datetime) (k : nat) (ops : list Op)
    : list RequestMetrics :=
  match ops with
  | [] => []
  | o :: ops' =>
      inserted_by o (mkWorld [] wl k) ++ inserted_from wl (clock_reads o + k) ops'
  end.

Definition inserted (ops : list Op) (w : World) : list RequestMetrics :=
  inserted_from (wall w) (S (reads w)) ops.

(** * Specification vocabulary *)

(** The last [n] elements of a list. *)
Definition lastn {A : Type} (n : nat) (l : list A) : list A :=
  skipn (length l - n) l.

Definition is_error (r : RequestMetrics) : bool := 400 <=? status_code r.

Definition key_of (r : RequestMetrics) : string :=
  endpoint_key (method r) (endpoint r).

(** The samples of [h] whose endpoint key is [key]. *)
Definition with_key (key : string) (h : list RequestMetrics) : list RequestMetrics :=
  List.filter (fun r => bool_decide (key_of r = key)) h.

(** Reading an aggregate field as the [defaultdict] would answer. *)
Definition stats_at (c : MetricsCollector) (key : string) : EndpointStats :=
  default default_endpoint_stats (endpoint_stats c !! key).

Definition call_count (c : MetricsCollector) (key : string) : Z :=
  count (stats_at c key).

Definition error_count (c : MetricsCollector) (key : string) : Z :=
  errors (stats_at c key).

(** The sum of a list of numbers, as mathematics writes it. *)
Definition total (xs : list Q) : Q := fold_right Qplus 0%Q xs.

(** What a chain of [+=] builds from 0: the items added in the order of the
    list, every addition rounded. *)
Definition accumulated (xs : list Q) : Q := fold_left Num.add xs 0%Q.

(** A response time as a request has it: a binary64 number, of a magnitude
    far below the largest one, so that sums of any length stay finite. *)
Definition ordinary (x : Q) : Prop :=
  (Num.b64 x == x)%Q /\ (Qabs x <= 2 ^ 900)%Q.


(** The error rate in percent, unrounded: 0 for no sample. *)
Definition exact_error_rate_percent (rs : list RequestMetrics) : Q :=
  match rs with
  | [] => 0%Q
  | _ :: _ => (100 * (inject_Z (len (List.filter is_error rs)) / inject_Z (len rs)))%Q
  end.


#[local] Instance Qlt_decision (x y : Q) : Decision (x < y)%Q :=
  match Qlt_le_dec x y with
  | left H => left H
  | right H => right (Qle_not_lt y x H)
  end.

(** The issue a rule appends when its condition holds. *)
Definition issue_if (P : Prop) `{Decision P} (i : Issue) : list Issue :=
  if decide P then [i] else [].

(** The lines of level [INFO] among [l]. *)
Definition info_lines (l : list LogRecord) : list LogRecord :=
  List.filter (fun r => match level r with INFO => true | _ => false end) l.

(** Two results of [get_stats] that differ at most in [timestamp]. *)
Definition same_except_timestamp (a b : Stats) : Prop :=
  uptime_seconds a = uptime_seconds b
  /\ uptime_human a = uptime_human b
  /\ total_requests a = total_requests b
  /\ recent_requests_5min a = recent_requests_5min b
  /\ error_rate_percent a = error_rate_percent b
  /\ avg_response_time_ms a = avg_response_time_ms b
  /\ current_system a = current_system b
  /\ endpoints a = endpoints b.

Fixpoint has_space (s : string) : bool :=
  match s with
  | EmptyString => false
  | String c s' => if Ascii.eqb c " "%char then true else has_space s'
  end.

(** The statement that [get_stats] reports the unrounded error rate. *)
Definition reports_exact_error_rate (s : State) : Prop :=
  forall stats s', get_stats s = Ok (stats, s') ->
    (error_rate_percent stats == exact_error_rate_percent (items (requests (self s))))%Q.


(** The statement that every aggregate of [s] holds the sum of the response
    times of the samples of [h] with its key. *)
Definition holds_exact_totals (s : State) (h : list RequestMetrics) : Prop :=
  forall key st,
    endpoint_stats (self s) !! key = Some st ->
    (total_time st == total (List.map response_time (with_key key h)))%Q.

(** The statement that two calls in a row agree outside [timestamp]. *)
Definition repeat_differs_in_timestamp_only (s : State) : Prop :=
  forall a s1 b s2,
    get_stats s = Ok (a, s1) -> get_stats s1 = Ok (b, s2) ->
    same_except_timestamp a b.

(** ** What each method computes

    Closed forms of the results and final states. They are not part of the
    program: each is proved equal to the method it describes. *)

Definition bump (m : RequestMetrics) (st : EndpointStats) : EndpointStats :=
  {| count := count st + 1;
     total_time := Num.add (total_time st) (response_time m);
     errors := if is_error m then errors st + 1 else errors st;
     last_called := Some (timestamp m) |}.

Definition after_add_request (m : RequestMetrics) (c : MetricsCollector)
    : MetricsCollector :=
  {| max_requests := max_requests c;
     requests := deque_append (requests c) m;
     system_metrics := system_metrics c;
     endpoint_stats := <[key_of m := bump m (stats_at c (key_of m))]> (endpoint_stats c);
     start_time := start_time c |}.

Definition request_line (m : RequestMetrics) : LogRecord :=
  mkLogRecord INFO (Msg_request (method m) (endpoint m) (status_code m) (response_time m)).

Definition emit (l : list LogRecord) (w : World) : World :=
  mkWorld (log w ++ l) (wall w) (reads w).

Definition tick (w : World) : World :=
  mkWorld (log w) (wall w) (S (reads w)).

Definition summarize (st : EndpointStats) : EndpointSummary :=
  {| calls := count st;
     avg_response_time :=
       Num.py_round (if 0 <? count st
                     then Num.div (total_time st) (Num.of_int (count st))
                     else 0%Q) 3;
     error_rate :=
       Num.py_round
         (Num.mul (if 0 <? count st
                   then Num.div (inject_Z (errors st)) (inject_Z (count st))
                   else 0%Q) 100) 2;
     summary_last_called := last_called st |}.

Definition summaries (its : list (string * EndpointStats))
    (acc : gmap string EndpointSummary) : gmap string EndpointSummary :=
  fold_left (fun acc it => <[it.1 := summarize it.2]> acc) its acc.

Definition error_rate_of (rs : list RequestMetrics) : Q :=
  if 0 <? len rs
  then Num.div (inject_Z (len (List.filter is_error rs))) (inject_Z (len rs))
  else 0%Q.

Definition avg_response_time_of (rs : list RequestMetrics) : Q :=
  match List.map response_time rs with
  | _ :: _ => Num.div (Num.py_sum (List.map response_time rs))
                (Num.of_int (len (List.map response_time rs)))
  | [] => 0%Q
  end.

Definition stats_of (now : datetime) (c : MetricsCollector) : Stats :=
  let rs := items (requests c) in
  {| uptime_seconds := timedelta_int_seconds (now - start_time c);
     uptime_human := timedelta_str_head (now - start_time c);
     total_requests := len rs;
     recent_requests_5min :=
       len (List.filter (fun r => now - timestamp r <? five_minutes) rs);
     error_rate_percent := Num.py_round (Num.mul (error_rate_of rs) 100) 2;
     avg_response_time_ms := Num.py_round (Num.mul (avg_response_time_of rs) 1000) 2;
     current_system := last (items (system_metrics c));
     endpoints := summaries (map_to_list (endpoint_stats c)) ∅;
     stats_timestamp := now |}.

Definition snapshot_lines (m : SystemMetrics) : list LogRecord :=
  (if Num.gtb (cpu_percent m) 80
   then [mkLogRecord WARNING (Msg_high_cpu_usage (cpu_percent m))] else [])
  ++ (if Num.gtb (memory_percent m) 80
      then [mkLogRecord WARNING (Msg_high_memory_usage (memory_percent m))] else []).

Definition rule_issues (stats : Stats) : list Issue :=
  (if Num.gtb (error_rate_percent stats) 10
   then [High_error_rate (error_rate_percent stats)] else [])
  ++ (if Num.gtb (avg_response_time_ms stats) 5000
      then [Slow_response_time (avg_response_time_ms stats)] else [])
  ++ match current_system stats with
     | Some sys =>
         (if Num.gtb (cpu_percent sys) 90 then [High_CPU (cpu_percent sys)] else [])
         ++ (if Num.gtb (memory_percent sys) 90
             then [High_memory (memory_percent sys)] else [])
     | None => []
     end.

Definition verdict (n : nat) : string :=
  match n with
  | O => "healthy"
  | 1%nat | 2%nat => "degraded"
  | _ => "unhealthy"
  end.

Definition health_of (stats : Stats) (now : datetime) : Health :=
  {| status := verdict (length (rule_issues stats));
     issues := rule_issues stats;
     uptime := uptime_human stats;
     health_total_requests := total_requests stats;
     health_timestamp := now |}.

Definition classification_lines (e m : string) (sc : Z) (rt : Q)
    (err : option string) : list LogRecord :=
  if 500 <=? sc then [mkLogRecord ERROR (Msg_server_error m e sc err)]
  else if 400 <=? sc then [mkLogRecord WARNING (Msg_client_error m e sc)]
  else if Num.gtb rt 10 then [mkLogRecord WARNING (Msg_slow_request m e rt)]
  else [].

(** The effect of an operation on the collector, on the log and on the
    clock. *)
Definition exec_self (o : Op) (w : World) (c : MetricsCollector) : MetricsCollector :=
  match o with
  | Add_system_metrics m => set_system_metrics (deque_append (system_metrics c) m) c
  | Get_stats | Get_health_status => c
  | Add_request _ | Log_request _ _ _ _ _ _ _ =>
      fold_left (fun c m => after_add_request m c) (inserted_by o w) c
  end.

Definition exec_lines (o : Op) (w : World) : list LogRecord :=
  match o with
  | Add_request m => [request_line m]
  | Add_system_metrics m => snapshot_lines m
  | Get_stats | Get_health_status => []
  | Log_request e m sc rt ua ip err =>
      List.map request_line (inserted_by o w) ++ classification_lines e m sc rt err
  end.

Definition exec_world (o : Op) (w : World) : World :=
  mkWorld (log w ++ exec_lines o w) (wall w) (clock_reads o + reads w).

(** ** The invariant linking a collector to the samples it was given *)

(** The aggregate that the samples [h] determine for [key]: none when no
    sample has the key. *)
Definition aggregate (key : string) (h : list RequestMetrics) : option EndpointStats :=
  match with_key key h with
  | [] => None
  | _ :: _ =>
      Some {| count := len (with_key key h);
              total_time := accumulated (List.map response_time (with_key key h));
              errors := len (List.filter is_error (with_key key h));
              last_called := timestamp <$> last (with_key key h) |}
  end.

Record Tracks (n : Z) (h : list RequestMetrics) (c : MetricsCollector) : Prop := {
  tracks_maxlen : maxlen (requests c) = n;
  tracks_items : items (requests c) = lastn (Z.to_nat n) h;
  tracks_stats : forall key, endpoint_stats c !! key = aggregate key h
}.

(** ** Concrete scenarios *)

(** A quiet process whose clock advances one second per reading. *)
Definition clock0 : World := mkWorld [] (fun k => Z.of_nat k * 1000000) 0.

(** A process whose clock advances 200 seconds per reading. *)
Definition slow_clock : World := mkWorld [] (fun k => Z.of_nat k * 200000000) 0.

Definition sample (m e : string) (sc : Z) (rt : Q) (ts : datetime) : RequestMetrics :=
  mkRequestMetrics e m sc rt ts None None None.

(** The floats [0.1], [0.2], [0.3] and [0.05]. *)
Definition tenth : Q := Num.b64 (1 # 10).
Definition fifth : Q := Num.b64 (2 # 10).
Definition three_tenths : Q := Num.b64 (3 # 10).
Definition twentieth : Q := Num.b64 (5 # 100).

Definition sample_a : RequestMetrics := sample "GET" "/a" 200 tenth 0.
Definition sample_b : RequestMetrics := sample "GET" "/b" 500 fifth 0.
Definition sample_c : RequestMetrics := sample "GET" "/a" 404 three_tenths 0.

Definition three_inserts : list Op :=
  [Add_request sample_a; Add_request sample_b; Add_request sample_c].

(** One failure among three requests. *)
Definition one_error_in_three : list Op :=
  [Add_request (sample "GET" "/a" 200 tenth 0);
   Add_request (sample "GET" "/a" 200 tenth 0);
   Add_request (sample "GET" "/a" 500 tenth 0)].


Definition one_request : list Op := [Add_request sample_a].

(** A request of 0.1 s, then one of 0.2 s on the same endpoint. *)
Definition tenth_then_fifth : list Op :=
  [Add_request (sample "GET" "/a" 200 tenth 0);
   Add_request (sample "GET" "/a" 200 fifth 0)].

(** Requests of 0.1 s, 0.2 s and 0.3 s on one endpoint, and the same
    requests in the opposite order. *)
Definition rising_times : list Op :=
  [Add_request (sample "GET" "/a" 200 tenth 0);
   Add_request (sample "GET" "/a" 200 fifth 0);
   Add_request (sample "GET" "/a" 200 three_tenths 0)].

Definition falling_times : list Op :=
  [Add_request (sample "GET" "/a" 200 three_tenths 0);
   Add_request (sample "GET" "/a" 200 fifth 0);
   Add_request (sample "GET" "/a" 200 tenth 0)].

(** 23 failures followed by 137 successes on one endpoint. *)
Definition failures_23_of_160 : list Op :=
  List.repeat (Add_request (sample "GET" "/a" 500 tenth 0)) 23
  ++ List.repeat (Add_request (sample "GET" "/a" 200 tenth 0)) 137.

(** Requests of 0.15 s and 0.251 s on one endpoint. *)
Definition two_response_times : list Op :=
  [Add_request (sample "GET" "/a" 200 (Num.b64 (15 # 100)) 0);
   Add_request (sample "GET" "/a" 200 (Num.b64 (251 # 1000)) 0)].

(** [log_request_metrics] ten times on "/api/test": status 200 for the
    first eight calls and 500 for the last two, response time
    [0.1 + i * 0.05]. *)
Definition self_test : list Op :=
  List.map (fun i : nat =>
              Log_request "/api/test" "GET" (if (i <? 8)%nat then 200 else 500)
                (Num.add tenth (Num.mul (Num.of_int (Z.of_nat i)) twentieth))
                None None None)
    (seq 0 10).

Definition hot_cpu : SystemMetrics :=
  mkSystemMetrics 95 50 1024 512 40 0.

(** * Further vocabulary: whole sessions *)

(** The final state of [run ops], in closed form. *)
Fixpoint run_state (ops : list Op) (s : State) : State :=
  match ops with
  | [] => s
  | o :: ops' =>
      run_state ops' (mkState (exec_self o (world s) (self s)) (exec_world o (world s)))
  end.

(** The snapshots an operation hands to [add_system_metrics]. *)
Definition snapshots_by (o : Op) : list SystemMetrics :=
  match o with
  | Add_system_metrics metrics => [metrics]
  | _ => []
  end.

(** All snapshots inserted by [ops], oldest first. *)
Definition snapshots (ops : list Op) : list SystemMetrics :=
  flat_map snapshots_by ops.

(** The parts of a collector that insertions of requests leave alone. *)
Record Shaped (n : Z) (t0 : datetime) (sn : list SystemMetrics)
    (c : MetricsCollector) : Prop := {
  shaped_max_requests : max_requests c = n;
  shaped_start_time : start_time c = t0;
  shaped_maxlen : maxlen (system_metrics c) = 100;
  shaped_items : items (system_metrics c) = lastn 100 sn
}.

(** The collector that [MetricsCollector(n)] builds at time [t0]. *)
Definition fresh (n : Z) (t0 : datetime) : MetricsCollector :=
  {| max_requests := n;
     requests := mkDeque [] n;
     system_metrics := mkDeque [] 100;
     endpoint_stats := ∅;
     start_time := t0 |}.


(** The log line a check appends when its condition holds. *)
Definition line_if (P : Prop) `{Decision P} (r : LogRecord) : list LogRecord :=
  if decide P then [r] else [].

Definition cool_cpu : SystemMetrics :=
  mkSystemMetrics 20 30 512 1024 40 0.

Definition two_snapshots : list Op :=
  [Add_system_metrics hot_cpu; Add_request sample_a; Add_system_metrics cool_cpu;
   Get_stats].

(** Two orders of the same calls, with a query in between. *)
Definition requests_then_snapshot : list Op :=
  [Add_request sample_a; Add_request sample_b; Get_stats; Add_system_metrics hot_cpu].

Definition snapshot_then_requests : list Op :=
  [Get_health_status; Add_system_metrics hot_cpu; Add_request sample_a;
   Add_request sample_b].

(** An issue raised by a rule on the request figures. *)
Definition about_requests (i : Issue) : Prop :=
  match i with
  | High_error_rate _ | Slow_response_time _ => True
  | High_CPU _ | High_memory _ => False
  end.

(** * SystemMonitor

    [start_monitoring] is a coroutine on the event loop that also runs the
    request handlers. Its code runs without interruption between two
    [await]s; at [await asyncio.sleep(interval)] other tasks run. A run of
    the loop is described by a schedule: for each iteration, what [psutil]
    supplied and what the other tasks did during the sleep. The loop is
    followed for as long as the schedule lasts. Cancellation of the task is
    outside the model. *)

(** The log lines of [SystemMonitor]. *)
Inductive MonitorMessage : Type :=
| Msg_starting_monitoring (interval : Z)
| Msg_monitoring_error (text : string)
| Msg_monitoring_stopped.

(** A line of the module's logger: from the collector and the request
    logger, or from the monitor. *)
Inductive Line : Type :=
| Collector_line (r : LogRecord)
| Monitor_line (lv : Level) (msg : MonitorMessage).

(** The process with its monitor: the global [metrics_collector], the
    output of [logger], the clock, and [system_monitor.monitoring]. *)
Record Process : Type := mkProcess {
  collector : MetricsCollector;
  lines : list Line;
  clock : nat -> datetime;
  ticks : nat;
  monitoring : bool
}.

(** A method of the collector run in the process. The methods only append
    to the log, so they are run on an empty one and their lines appended. *)
Definition on_collector {A : Type} (m : M State A) : M Process A :=
  fun p =>
    match m (mkState (collector p) (mkWorld [] (clock p) (ticks p))) with
    | Ok (a, s) =>
        Ok (a, mkProcess (self s)
                 (lines p ++ List.map Collector_line (log (world s)))
                 (wall (world s)) (reads (world s)) (monitoring p))
    | Raise e => Raise e
    end.

Definition monitor_emit (lv : Level) (msg : MonitorMessage) : M Process unit :=
  fun p => Ok (tt, mkProcess (collector p) (lines p ++ [Monitor_line lv msg])
                     (clock p) (ticks p) (monitoring p)).

Definition set_monitoring (b : bool) : M Process unit :=
  fun p => Ok (tt, mkProcess (collector p) (lines p) (clock p) (ticks p) b).

Definition get_monitoring : M Process bool := fun p => Ok (monitoring p, p).

(** What the three [psutil] calls of one iteration give: the readings, or
    the text of the exception that one of them raised. *)
Inductive Supplied : Type :=
| Sampled (cpu mem : Q) (used available : Z) (disk : Q)
| Supply_failed (text : string).

(** What another task does while the monitor sleeps. *)
Inductive Activity : Type :=
| Other_call (o : Op)
| Stop_call.

Record Turn : Type := mkTurn {
  supplied : Supplied;
  meanwhile : list Activity
}.

(** [SystemMonitor.stop_monitoring] *)
Definition stop_monitoring : M Process unit :=
  set_monitoring false;;
  monitor_emit INFO Msg_monitoring_stopped.

Definition activity (a : Activity) : M Process unit :=
  match a with
  | Other_call o => on_collector (exec o)
  | Stop_call => stop_monitoring
  end.

(** [await asyncio.sleep(interval)]: the other tasks run. *)
Fixpoint asyncio_sleep (acts : list Activity) : M Process unit :=
  match acts with
  | [] => ret tt
  | a :: acts' => activity a;; asyncio_sleep acts'
  end.

(** The body of [while self.monitoring]. The [except] clause is entered
    from the [psutil] calls only: [add_system_metrics] returns in every
    state. *)
Definition monitor_iteration (t : Turn) : M Process unit :=
  match supplied t with
  | Sampled cpu mem used available disk =>
      let* now := on_collector (lift datetime_now) in
      let metrics :=
        {| cpu_percent := cpu;
           memory_percent := mem;
           memory_used_mb := Num.div (Num.div (inject_Z used) 1024) 1024;
           memory_available_mb := Num.div (Num.div (inject_Z available) 1024) 1024;
           disk_usage_percent := disk;
           sys_timestamp := now |} in
      on_collector (add_system_metrics metrics);;
      asyncio_sleep (meanwhile t)
  | Supply_failed text =>
      monitor_emit ERROR (Msg_monitoring_error text);;
      asyncio_sleep (meanwhile t)
  end.

(** Whether the loop has been left when the schedule ends. *)
Inductive LoopStatus : Type := Exited | Running.

Fixpoint monitor_loop (schedule : list Turn) : M Process LoopStatus :=
  match schedule with
  | [] =>
      let* on := get_monitoring in
      ret (if on then Running else Exited)
  | t :: schedule' =>
      let* on := get_monitoring in
      if on then monitor_iteration t;; monitor_loop schedule' else ret Exited
  end.

(** [SystemMonitor.start_monitoring] *)
Definition start_monitoring (interval : Z) (schedule : list Turn)
    : M Process LoopStatus :=
  set_monitoring true;;
  monitor_emit INFO (Msg_starting_monitoring interval);;
  monitor_loop schedule.

(** ** Vocabulary for the monitor *)

Definition stops_activity (a : Activity) : bool :=
  match a with Stop_call => true | Other_call _ => false end.

(** A stop is requested during the sleep of the turn. *)
Definition stops (t : Turn) : bool := existsb stops_activity (meanwhile t).

(** No other task calls the collector during the sleep of the turn. *)
Definition quiet (t : Turn) : bool := forallb stops_activity (meanwhile t).

(** The turns that a started loop goes through: up to and including the
    first one during which a stop is requested. *)
Fixpoint executed (schedule : list Turn) : list Turn :=
  match schedule with
  | [] => []
  | t :: schedule' => t :: (if stops t then [] else executed schedule')
  end.

(** The snapshots that the turns insert when the monitor alone reads the
    clock [wl], starting at reading [k]: one per successful sample. *)
Fixpoint sampled_snapshots (wl : nat -> datetime) (k : nat) (turns : list Turn)
    : list SystemMetrics :=
  match turns with
  | [] => []
  | t :: turns' =>
      match supplied t with
      | Sampled cpu mem used available disk =>
          mkSystemMetrics cpu mem (Num.div (Num.div (inject_Z used) 1024) 1024)
            (Num.div (Num.div (inject_Z available) 1024) 1024) disk (wl k)
          :: sampled_snapshots wl (S k) turns'
      | Supply_failed _ => sampled_snapshots wl k turns'
      end
  end.



Definition is_monitor_error (l : Line) : bool :=
  match l with
  | Monitor_line ERROR (Msg_monitoring_error _) => true
  | _ => false
  end.

(** The turns that the loop goes through from a process in which the flag
    may already be off. *)
Definition executed_from (p : Process) (schedule : list Turn) : list Turn :=
  if monitoring p then executed schedule else [].

(** A monitor that samples twice, fails once, and is stopped. *)
Definition demo_schedule : list Turn :=
  [mkTurn (Sampled 95 50 (2 * 1024 * 1024) (1024 * 1024) 40) [];
   mkTurn (Supply_failed "no access") [];
   mkTurn (Sampled 10 20 (1024 * 1024) (3 * 1024 * 1024) 40) [Stop_call];
   mkTurn (Sampled 99 99 0 0 99) []].

Definition demo_process : Process :=
  mkProcess (fresh 1000 0) [] (fun k => Z.of_nat k * 1000000) 1 false.

(** * The module-level functions and the middleware *)

(** [get_monitoring_stats], [get_health_check] and [log_request_metrics]
    call the methods on the global collector; the keyword arguments of the
    last one are the three optional fields, absent ones being [None]. *)
Definition get_monitoring_stats : M State Stats := get_stats.

Definition get_health_check : M State Health := get_health_status.

Definition log_request_metrics (endpoint method : string) (status_code : Z)
    (response_time : Q) (user_agent ip_address error_message : option string)
    : M State unit :=
  log_request endpoint method status_code response_time
    user_agent ip_address error_message.

(** What the middleware reads of the request: [request.url.path],
    [request.method], [request.headers.get('user-agent')], and
    [request.client.host] when there is a client. *)
Record Request : Type := mkRequest {
  url_path : string;
  request_method : string;
  header_user_agent : option string;
  client_host : option string
}.

Record Response : Type := mkResponse {
  response_status_code : Z;
  response_body : string
}.

(** What [await call_next(request)] comes back with: a response, or an
    exception, given by its text. *)
Inductive Handled : Type :=
| Responded (response : Response)
| Threw (text : string).

(** How the middleware ends: it returns the response or raises the
    exception again. *)
Inductive Outcome : Type :=
| Returned (response : Response)
| Reraised (text : string).

(** [monitoring_middleware]. [start_time] and [now] are the two readings of
    [time.time()]; their difference is taken as it is, which is what
    binary64 gives for two readings of one clock (they are within a factor
    of two of each other). [meanwhile] is what other tasks call on the
    collector while the handler is awaited. The [except] clause is entered
    from [call_next] only: [log_request_metrics] returns in every state. *)
Definition monitoring_middleware (request : Request) (start_time : Q)
    (meanwhile : list Op) (handled : Handled) (now : Q) : M State Outcome :=
  run meanwhile;;
  match handled with
  | Responded response =>
      let response_time := (now - start_time)%Q in
      log_request_metrics (url_path request) (request_method request)
        (response_status_code response) response_time
        (header_user_agent request) (client_host request) None;;
      ret (Returned response)
  | Threw text =>
      let response_time := (now - start_time)%Q in
      log_request_metrics (url_path request) (request_method request)
        500 response_time
        (header_user_agent request) (client_host request) (Some text);;
      ret (Reraised text)
  end.

(** The status code under which the middleware records a request. *)
Definition recorded_status (handled : Handled) : Z :=
  match handled with
  | Responded response => response_status_code response
  | Threw _ => 500
  end.

(** The end of the middleware that mirrors what the handler did. *)
Definition passed_on (handled : Handled) : Outcome :=
  match handled with
  | Responded response => Returned response
  | Threw text => Reraised text
  end.

(** * Proofs *)

(** ** Numbers *)

Lemma inject_Z_pos_nonzero (z : Z) :
  (0 <? z) = true -> Qeq_bool (inject_Z z) 0 = false.
Proof.
  intros H. apply Z.ltb_lt in H.
  destruct (Qeq_bool (inject_Z z) 0) eqn:E; [|reflexivity].
  apply Qeq_bool_eq in E. unfold Qeq in E. simpl in E. lia.
Qed.

Lemma len_pos_nonzero (A : Type) (x : A) (l : list A) : ~ (inject_Z (len (x :: l)) == 0)%Q.
Proof. unfold len, Qeq. simpl. lia. Qed.

Lemma gtb_spec (x y : Q) : Num.gtb x y = true <-> (y < x)%Q.
Proof.
  unfold Num.gtb. rewrite negb_true_iff. split.
  - intros H. apply Qnot_le_lt. intros L. apply Qle_bool_iff in L. congruence.
  - intros H. destruct (Qle_bool x y) eqn:E; [|reflexivity].
    apply Qle_bool_iff in E. exfalso. now apply (Qlt_not_le y x).
Qed.

Lemma gtb_issue_if (x y : Q) (i : Issue) :
  (if Num.gtb x y then [i] else []) = issue_if (y < x)%Q i.
Proof.
  unfold issue_if. destruct (decide (y < x)%Q) as [H|H].
  - apply gtb_spec in H. now rewrite H.
  - destruct (Num.gtb x y) eqn:E; [|reflexivity]. apply gtb_spec in E. tauto.
Qed.

(** *** The nearest integer *)

#[local] Instance round_half_even_proper : Proper (Qeq ==> eq) Num.round_half_even.
Proof.
  intros x y E. unfold Num.round_half_even. cbv zeta.
  assert (F : Qfloor x = Qfloor y) by now apply Qfloor_comp.
  assert (C : Qcompare (x - inject_Z (Qfloor x)) (1 # 2)
              = Qcompare (y - inject_Z (Qfloor y)) (1 # 2)).
  { apply Qcompare_comp; [|reflexivity]. rewrite F. now apply Qplus_comp. }
  now rewrite C, F.
Qed.

Lemma round_half_even_Z (z : Z) : Num.round_half_even (inject_Z z) = z.
Proof.
  unfold Num.round_half_even. cbv zeta. rewrite Qfloor_Z.
  assert (E : Qcompare (inject_Z z - inject_Z z) (1 # 2) = Lt).
  { apply Qlt_alt. assert (Z0 : (inject_Z z - inject_Z z == 0)%Q) by ring.
    rewrite Z0. reflexivity. }
  now rewrite E.
Qed.

Lemma round_half_even_ge (y : Q) (a : Z) :
  (inject_Z a <= y)%Q -> a <= Num.round_half_even y.
Proof.
  intros Ha.
  assert (Fa : a <= Qfloor y).
  { rewrite <- (Qfloor_Z a). now apply Qfloor_resp_le. }
  unfold Num.round_half_even. cbv zeta.
  destruct (Qcompare (y - inject_Z (Qfloor y)) (1 # 2));
    [destruct (Z.even (Qfloor y))|..]; lia.
Qed.

Lemma round_half_even_le (y : Q) (b : Z) :
  (y <= inject_Z b)%Q -> Num.round_half_even y <= b.
Proof.
  intros Hb.
  assert (Fb : Qfloor y <= b).
  { rewrite <- (Qfloor_Z b). now apply Qfloor_resp_le. }
  assert (Up : ~ (y - inject_Z (Qfloor y) < 1 # 2)%Q -> Qfloor y + 1 <= b).
  { intros H. assert (L : (inject_Z (Qfloor y) < inject_Z b)%Q).
    { apply Qlt_le_trans with y; [|exact Hb].
      apply Qnot_le_lt. intros H'. apply H.
      apply Qle_lt_trans with 0%Q; [|reflexivity].
      apply (Qplus_le_l _ _ (inject_Z (Qfloor y))). ring_simplify. exact H'. }
    rewrite <- Zlt_Qlt in L. lia. }
  unfold Num.round_half_even. cbv zeta.
  destruct (Qcompare (y - inject_Z (Qfloor y)) (1 # 2)) eqn:E.
  - apply Qeq_alt in E.
    assert (Qfloor y + 1 <= b) by (apply Up; rewrite E; apply Qlt_irrefl).
    destruct (Z.even (Qfloor y)); lia.
  - lia.
  - apply Qgt_alt in E.
    assert (Qfloor y + 1 <= b).
    { apply Up. intros H. apply (Qlt_irrefl (1 # 2)).
      eapply Qlt_trans; [exact E|exact H]. }
    lia.
Qed.

Lemma round_half_even_between (y : Q) (a b : Z) :
  (inject_Z a <= y)%Q -> (y <= inject_Z b)%Q ->
  a <= Num.round_half_even y <= b.
Proof.
  intros Ha Hb. split; [now apply round_half_even_ge|now apply round_half_even_le].
Qed.

(** *** Rounding to binary64 *)

#[local] Instance b64_proper : Proper (Qeq ==> eq) Num.b64.
Proof. intros x y E. unfold Num.b64. now rewrite (Qred_complete _ _ E). Qed.

Lemma pow2_pos (e : Z) : (0 < 2 ^ e)%Q.
Proof. now apply Qpower_0_lt. Qed.

Lemma pow2_Z (e : Z) : 0 <= e -> (2 ^ e == inject_Z (2 ^ e))%Q.
Proof. intros H. now rewrite Zpower_Qpower. Qed.

Lemma pow2_le (i j : Z) : i <= j -> (2 ^ i <= 2 ^ j)%Q.
Proof. intros H. apply Qpower_le_compat_l; [exact H|discriminate]. Qed.

(** The leading binary digit of [x] is not above [x]. *)
Lemma ilog2_le (x : Q) : ~ (x == 0)%Q -> (2 ^ Num.ilog2 x <= Qabs x)%Q.
Proof.
  intros Hx. unfold Num.ilog2. cbv zeta.
  set (l := Z.log2 (Z.abs (Qnum x)) - Z.log2 (Z.pos (Qden x))).
  destruct (Qle_bool (2 ^ l) (Qabs x)) eqn:E; [now apply Qle_bool_iff|]. clear E.
  destruct x as [n d]. cbn [Qnum Qden Qabs] in *.
  assert (Hn : 0 < Z.abs n).
  { unfold Qeq in Hx. simpl in Hx. lia. }
  pose proof (Z.log2_spec (Z.abs n) Hn) as [La _].
  pose proof (Z.log2_spec (Z.pos d) ltac:(lia)) as [_ Lb].
  pose proof (Z.log2_nonneg (Z.abs n)) as Na.
  pose proof (Z.log2_nonneg (Z.pos d)) as Nb.
  set (a := Z.log2 (Z.abs n)) in *. set (b := Z.log2 (Z.pos d)) in *.
  assert (P : (2 ^ (l - 1) * 2 ^ (b + 1) == 2 ^ a)%Q).
  { rewrite <- Qpower_plus by discriminate. unfold l. f_equiv. lia. }
  apply (Qmult_le_r _ _ (inject_Z (Z.pos d))); [reflexivity|].
  apply Qle_trans with (2 ^ (l - 1) * 2 ^ (b + 1))%Q.
  - apply Qmult_le_l; [apply pow2_pos|].
    rewrite pow2_Z by lia. rewrite <- Zle_Qle. lia.
  - rewrite P, pow2_Z by lia.
    apply Qle_trans with (inject_Z (Z.abs n)); [rewrite <- Zle_Qle; lia|].
    unfold Qle, Qmult. simpl. lia.
Qed.

Lemma pow2_opp (e : Z) : (2 ^ (- e) * 2 ^ e == 1)%Q.
Proof. rewrite <- Qpower_plus by discriminate. now replace (- e + e) with 0 by lia. Qed.

Lemma div_pow2 (x : Q) (e : Z) : (x / 2 ^ e == x * 2 ^ (- e))%Q.
Proof. rewrite Qpower_opp. reflexivity. Qed.

Lemma b64_nonneg (x : Q) : (0 <= x)%Q -> (0 <= Num.b64 x)%Q.
Proof.
  intros H. unfold Num.b64. cbv zeta.
  destruct (Qeq_bool (Qred x) 0); [discriminate|].
  pose proof (Qred_correct x) as Ey.
  set (y := Qred x) in *. set (e := Num.ulp_exponent y).
  apply Qmult_le_0_compat; [|apply Qlt_le_weak, pow2_pos].
  change 0%Q with (inject_Z 0). rewrite <- Zle_Qle.
  apply round_half_even_ge. rewrite Ey, div_pow2.
  apply Qmult_le_0_compat; [exact H|apply Qlt_le_weak, pow2_pos].
Qed.

(** A number that is not too small for its leading digit to count has a
    unit in the last place of at most one. *)
Lemma ulp_exponent_small (y : Q) (b : Z) :
  ~ (y == 0)%Q -> (Qabs y <= inject_Z b)%Q -> b < 2 ^ 53 -> Num.ulp_exponent y <= 0.
Proof.
  intros E Hb Hr. unfold Num.ulp_exponent. apply Z.max_lub; [|lia].
  destruct (Z.le_gt_cases (Num.ilog2 y) 52) as [L|L]; [lia|exfalso].
  pose proof (ilog2_le y E) as I.
  assert (B : (2 ^ 53 <= Qabs y)%Q).
  { eapply Qle_trans; [|exact I]. apply pow2_le. lia. }
  assert (C : (2 ^ 53 <= inject_Z b)%Q) by (eapply Qle_trans; eassumption).
  rewrite pow2_Z, <- Zle_Qle in C by lia. lia.
Qed.

(** Rounding does not cross an integer that binary64 holds exactly. *)
Lemma b64_le_Z (x : Q) (b : Z) :
  (0 <= x)%Q -> (x <= inject_Z b)%Q -> b < 2 ^ 53 -> (Num.b64 x <= inject_Z b)%Q.
Proof.
  intros H0 Hb Hr. unfold Num.b64. cbv zeta.
  destruct (Qeq_bool (Qred x) 0) eqn:E.
  { apply Qle_trans with x; assumption. }
  apply Qeq_bool_neq in E.
  pose proof (Qred_correct x) as Ey.
  set (y := Qred x) in *. set (e := Num.ulp_exponent y).
  assert (He : e <= 0).
  { apply (ulp_exponent_small y b); [exact E| |exact Hr].
    rewrite Ey, Qabs_pos; assumption. }
  apply Qle_trans with (inject_Z (b * 2 ^ (- e)) * 2 ^ e)%Q.
  - apply Qmult_le_compat_r; [|apply Qlt_le_weak, pow2_pos].
    rewrite <- Zle_Qle. apply round_half_even_le.
    rewrite inject_Z_mult, <- pow2_Z, Ey, div_pow2 by lia.
    apply Qmult_le_compat_r; [exact Hb|apply Qlt_le_weak, pow2_pos].
  - rewrite inject_Z_mult, <- pow2_Z, <- Qmult_assoc, pow2_opp, Qmult_1_r by lia.
    apply Qle_refl.
Qed.

Lemma b64_ge_Z (x : Q) (a : Z) :
  0 <= a < 2 ^ 53 -> (inject_Z a <= x)%Q -> (inject_Z a <= Num.b64 x)%Q.
Proof.
  intros Hr Ha. unfold Num.b64. cbv zeta.
  destruct (Qeq_bool (Qred x) 0) eqn:E.
  { apply Qeq_bool_eq in E. rewrite Qred_correct in E. now rewrite <- E. }
  apply Qeq_bool_neq in E.
  pose proof (Qred_correct x) as Ey.
  set (y := Qred x) in *. set (e := Num.ulp_exponent y).
  assert (H0 : (0 <= x)%Q).
  { apply Qle_trans with (inject_Z a); [|exact Ha].
    change 0%Q with (inject_Z 0). rewrite <- Zle_Qle. lia. }
  destruct (Z.le_gt_cases e 0) as [He|He].
  - apply Qle_trans with (inject_Z (a * 2 ^ (- e)) * 2 ^ e)%Q.
    + rewrite inject_Z_mult, <- pow2_Z, <- Qmult_assoc, pow2_opp, Qmult_1_r by lia.
      apply Qle_refl.
    + apply Qmult_le_compat_r; [|apply Qlt_le_weak, pow2_pos].
      rewrite <- Zle_Qle. apply round_half_even_ge.
      rewrite inject_Z_mult, <- pow2_Z, Ey, div_pow2 by lia.
      apply Qmult_le_compat_r; [exact Ha|apply Qlt_le_weak, pow2_pos].
  - assert (Ei : e = Num.ilog2 y - 52).
    { unfold e, Num.ulp_exponent in *. lia. }
    pose proof (ilog2_le y E) as I. set (i := Num.ilog2 y) in *.
    rewrite Ey, Qabs_pos in I by assumption.
    apply Qle_trans with (inject_Z (2 ^ 52) * 2 ^ e)%Q.
    + apply Qle_trans with (inject_Z (2 ^ 52) * 2 ^ 1)%Q.
      * change (inject_Z (2 ^ 52) * 2 ^ 1)%Q with (inject_Z (2 ^ 52) * inject_Z 2)%Q.
        rewrite <- inject_Z_mult, <- Zle_Qle.
        change (2 ^ 52 * 2) with (2 ^ 53). lia.
      * apply Qmult_le_l; [reflexivity|]. apply pow2_le. lia.
    + apply Qmult_le_compat_r; [|apply Qlt_le_weak, pow2_pos].
      rewrite <- Zle_Qle. apply round_half_even_ge.
      rewrite <- pow2_Z, Ey, div_pow2 by lia.
      apply Qle_trans with (2 ^ i * 2 ^ (- e))%Q.
      * rewrite <- Qpower_plus by discriminate. apply pow2_le. lia.
      * apply Qmult_le_compat_r; [exact I|apply Qlt_le_weak, pow2_pos].
Qed.

(** The leading binary digit of [x] is the highest one that is not
    above [x]. *)
Lemma ilog2_lt (x : Q) : ~ (x == 0)%Q -> (Qabs x < 2 ^ (Num.ilog2 x + 1))%Q.
Proof.
  intros Hx. unfold Num.ilog2. cbv zeta.
  set (l := Z.log2 (Z.abs (Qnum x)) - Z.log2 (Z.pos (Qden x))).
  destruct (Qle_bool (2 ^ l) (Qabs x)) eqn:E.
  2: { replace (l - 1 + 1) with l by lia. apply Qnot_le_lt. intros H.
       apply Qle_bool_iff in H. congruence. }
  clear E. destruct x as [n d]. cbn [Qnum Qden Qabs] in *.
  assert (Hn : 0 < Z.abs n).
  { unfold Qeq in Hx. simpl in Hx. lia. }
  pose proof (Z.log2_spec (Z.abs n) Hn) as [_ La].
  pose proof (Z.log2_spec (Z.pos d) ltac:(lia)) as [Lb _].
  pose proof (Z.log2_nonneg (Z.abs n)) as Na.
  pose proof (Z.log2_nonneg (Z.pos d)) as Nb.
  set (a := Z.log2 (Z.abs n)) in *. set (b := Z.log2 (Z.pos d)) in *.
  assert (P : (2 ^ (l + 1) * 2 ^ b == 2 ^ (a + 1))%Q).
  { rewrite <- Qpower_plus by discriminate. unfold l. f_equiv. lia. }
  apply (Qmult_lt_r _ _ (inject_Z (Z.pos d))); [reflexivity|].
  apply Qlt_le_trans with (2 ^ (l + 1) * 2 ^ b)%Q.
  - rewrite P, pow2_Z by lia.
    apply Qle_lt_trans with (inject_Z (Z.abs n)); [|rewrite <- Zlt_Qlt; lia].
    unfold Qle, Qmult. simpl. lia.
  - apply Qmult_le_l; [apply pow2_pos|].
    rewrite pow2_Z by lia. rewrite <- Zle_Qle. lia.
Qed.

Lemma ilog2_eq (x y : Q) : ~ (x == 0)%Q -> (x == y)%Q -> Num.ilog2 x = Num.ilog2 y.
Proof.
  assert (Le : forall x y, ~ (x == 0)%Q -> (x == y)%Q -> Num.ilog2 x <= Num.ilog2 y).
  { intros a b Ha E.
    assert (Hb : ~ (b == 0)%Q) by now rewrite <- E.
    pose proof (ilog2_le a Ha) as L. pose proof (ilog2_lt b Hb) as U.
    set (i := Num.ilog2 a) in *. set (j := Num.ilog2 b) in *.
    rewrite <- E in U.
    assert (H : (2 ^ i < 2 ^ (j + 1))%Q) by (eapply Qle_lt_trans; eassumption).
    apply Qpower_lt_compat_l_inv in H; [lia|reflexivity]. }
  intros Hx E. assert (Hy : ~ (y == 0)%Q) by now rewrite <- E.
  apply Z.le_antisymm; apply Le; try assumption. now symmetry.
Qed.

Lemma round_half_even_near (y : Q) :
  (Qabs (inject_Z (Num.round_half_even y) - y) <= 1 # 2)%Q.
Proof.
  pose proof (Qfloor_le y) as L. pose proof (Qlt_floor y) as U.
  unfold Num.round_half_even. cbv zeta.
  set (f := Qfloor y) in *. rewrite inject_Z_plus in U.
  change (inject_Z 1) with 1%Q in U.
  apply Qabs_Qle_condition.
  destruct (Qcompare (y - inject_Z f) (1 # 2)) eqn:E.
  - apply Qeq_alt in E.
    destruct (Z.even f); rewrite ?inject_Z_plus; change (inject_Z 1) with 1%Q; lra.
  - apply Qlt_alt in E. lra.
  - apply Qgt_alt in E. rewrite inject_Z_plus. change (inject_Z 1) with 1%Q. lra.
Qed.

(** [b64 x] is a multiple of the unit in the last place at [x], at most
    half a unit away from [x]. *)
Lemma b64_nearest (x : Q) :
  ~ (x == 0)%Q ->
  exists m : Z,
    (Num.b64 x == inject_Z m * 2 ^ Num.ulp_exponent x)%Q
    /\ (Qabs (Num.b64 x - x) * 2 <= 2 ^ Num.ulp_exponent x)%Q.
Proof.
  intros Hx. unfold Num.b64. cbv zeta.
  pose proof (Qred_correct x) as Ey.
  assert (Ee : Num.ulp_exponent (Qred x) = Num.ulp_exponent x).
  { unfold Num.ulp_exponent. rewrite (ilog2_eq (Qred x) x); [reflexivity| |exact Ey].
    now rewrite Ey. }
  destruct (Qeq_bool (Qred x) 0) eqn:E.
  { apply Qeq_bool_eq in E. rewrite Ey in E. contradiction. }
  rewrite Ee. set (y := Qred x) in *. set (e := Num.ulp_exponent x).
  set (m := Num.round_half_even (y / 2 ^ e)).
  exists m. split; [reflexivity|].
  pose proof (round_half_even_near (y / 2 ^ e)) as N. fold m in N.
  pose proof (pow2_pos e) as P.
  assert (D : (inject_Z m * 2 ^ e - x == (inject_Z m - y / 2 ^ e) * 2 ^ e)%Q).
  { rewrite Ey. field. intros Z0. rewrite Z0 in P. discriminate P. }
  rewrite D, Qabs_Qmult, (Qabs_pos (2 ^ e)) by now apply Qlt_le_weak.
  set (a := Qabs (inject_Z m - y / 2 ^ e)) in *. set (p := (2 ^ e)%Q) in *.
  assert (H : (a * p <= (1 # 2) * p)%Q).
  { apply Qmult_le_compat_r; [exact N|now apply Qlt_le_weak]. }
  lra.
Qed.

(** *** The operations *)


#[local] Instance div_proper : Proper (Qeq ==> Qeq ==> eq) Num.div.
Proof. intros x x' Ex y y' Ey. apply b64_proper. now rewrite Ex, Ey. Qed.

#[local] Instance py_round_proper : Proper (Qeq ==> eq ==> eq) Num.py_round.
Proof.
  intros x y E k ? <-. unfold Num.py_round.
  assert (R : Num.round_half_even (x * inject_Z (Num.pow10 k))
              = Num.round_half_even (y * inject_Z (Num.pow10 k))).
  { apply round_half_even_proper. now apply Qmult_comp. }
  now rewrite R.
Qed.

Lemma b64_zero (x : Q) : (x == 0)%Q -> Num.b64 x = 0%Q.
Proof. intros E. now rewrite (b64_proper _ _ E). Qed.

Lemma mul_zero (y : Q) : Num.mul 0 y = 0%Q.
Proof. apply b64_zero. ring. Qed.

Lemma div_zero (y : Q) : Num.div 0 y = 0%Q.
Proof. apply b64_zero. unfold Qdiv. ring. Qed.

Lemma py_round_zero (k : nat) : (Num.py_round 0 k == 0)%Q.
Proof.
  unfold Num.py_round.
  assert (E : (0 * inject_Z (Num.pow10 k) == inject_Z 0)%Q) by ring.
  rewrite (round_half_even_proper _ _ E), round_half_even_Z.
  rewrite b64_zero; [reflexivity|]. unfold Qdiv. ring.
Qed.

(** A float that holds a positive [int] is not zero. *)
Lemma of_int_nonzero (z : Z) : 0 < z -> Qeq_bool (Num.of_int z) 0 = false.
Proof.
  intros H. destruct (Qeq_bool (Num.of_int z) 0) eqn:E; [|reflexivity].
  apply Qeq_bool_eq in E.
  assert (L : (inject_Z 1 <= Num.of_int z)%Q).
  { apply b64_ge_Z; [change (2 ^ 53) with 9007199254740992; lia|].
    rewrite <- Zle_Qle. lia. }
  rewrite E in L. unfold Qle in L. simpl in L. lia.
Qed.

Lemma py_div_pos (x : Q) (z : Z) :
  (0 <? z) = true -> py_div x (inject_Z z) = Ok (Num.div x (inject_Z z)).
Proof. intros H. unfold py_div. now rewrite inject_Z_pos_nonzero. Qed.

Lemma py_div_of_int (x : Q) (z : Z) :
  (0 <? z) = true -> py_div x (Num.of_int z) = Ok (Num.div x (Num.of_int z)).
Proof.
  intros H. apply Z.ltb_lt in H. unfold py_div. now rewrite of_int_nonzero.
Qed.

Lemma accumulated_snoc (xs : list Q) (x : Q) :
  accumulated (xs ++ [x]) = Num.add (accumulated xs) x.
Proof. unfold accumulated. now rewrite fold_left_app. Qed.

(** Adding a float to [0] gives that float. *)
Lemma add_zero_l (x : Q) : (Num.b64 x == x)%Q -> (Num.add 0 x == x)%Q.
Proof.
  intros H. unfold Num.add.
  assert (E : (0 + x == x)%Q) by ring.
  now rewrite (b64_proper _ _ E).
Qed.

(** Dividing a float by the float [1] gives that float. *)
Lemma div_one (x : Q) : (Num.b64 x == x)%Q -> (Num.div x (Num.of_int 1) == x)%Q.
Proof.
  intros H. unfold Num.div.
  assert (E : (x / Num.of_int 1 == x)%Q).
  { assert (O : (Num.of_int 1 == 1)%Q) by (vm_compute; reflexivity).
    rewrite O. field. }
  now rewrite (b64_proper _ _ E).
Qed.

Lemma filter_error_le (l : list RequestMetrics) :
  0 <= len (List.filter is_error l) <= len l.
Proof. unfold len. pose proof (List.filter_length_le is_error l). lia. Qed.

Lemma filter_all (A : Type) (f : A -> bool) (l : list A) :
  Forall (fun x => f x = true) l -> List.filter f l = l.
Proof. induction 1 as [|x l H _ IH]; simpl; [reflexivity|]. now rewrite H, IH. Qed.

Lemma filter_none (A : Type) (f : A -> bool) (l : list A) :
  Forall (fun x => f x = false) l -> List.filter f l = [].
Proof. induction 1 as [|x l H _ IH]; simpl; [reflexivity|]. now rewrite H, IH. Qed.

(** *** Percentages *)

Lemma py_round_percent (x : Q) :
  (0 <= x)%Q -> (x <= 100)%Q ->
  (0 <= Num.py_round x 2)%Q /\ (Num.py_round x 2 <= 100)%Q.
Proof.
  intros H0 H1. unfold Num.py_round. change (Num.pow10 2) with 100.
  destruct (round_half_even_between (x * inject_Z 100) 0 10000) as [L U].
  - apply Qle_trans with (0 * inject_Z 100)%Q; [discriminate|].
    apply Qmult_le_compat_r; [exact H0|discriminate].
  - apply Qle_trans with (100 * inject_Z 100)%Q; [|discriminate].
    apply Qmult_le_compat_r; [exact H1|discriminate].
  - set (z := Num.round_half_even (x * inject_Z 100)) in *.
    assert (Q0 : (0 <= inject_Z z / inject_Z 100)%Q).
    { unfold Qle, Qdiv, Qmult, Qinv. simpl. lia. }
    assert (Q1 : (inject_Z z / inject_Z 100 <= inject_Z 100)%Q).
    { unfold Qle, Qdiv, Qmult, Qinv. simpl. lia. }
    split; [now apply b64_nonneg|].
    apply (b64_le_Z _ 100); [exact Q0|exact Q1|reflexivity].
Qed.

(** The share of a part in a whole, as a float and in percent. *)
Lemma share_between (e t : Z) :
  0 <= e <= t -> 0 < t ->
  (0 <= Num.div (inject_Z e) (inject_Z t))%Q
  /\ (Num.div (inject_Z e) (inject_Z t) <= 1)%Q.
Proof.
  intros He Ht.
  assert (Q0 : (0 <= inject_Z e / inject_Z t)%Q).
  { destruct t as [|t|t]; try lia. unfold Qle, Qdiv, Qmult, Qinv. simpl. nia. }
  assert (Q1 : (inject_Z e / inject_Z t <= inject_Z 1)%Q).
  { destruct t as [|t|t]; try lia. unfold Qle, Qdiv, Qmult, Qinv. simpl. nia. }
  split; [now apply b64_nonneg|].
  apply (b64_le_Z _ 1); [exact Q0|exact Q1|reflexivity].
Qed.

Lemma percent_between (e t : Z) :
  0 <= e <= t -> 0 < t ->
  (0 <= Num.mul (Num.div (inject_Z e) (inject_Z t)) 100)%Q
  /\ (Num.mul (Num.div (inject_Z e) (inject_Z t)) 100 <= 100)%Q.
Proof.
  intros He Ht. destruct (share_between e t He Ht) as [S0 S1].
  set (d := Num.div (inject_Z e) (inject_Z t)) in *.
  assert (Q0 : (0 <= d * 100)%Q).
  { apply Qmult_le_0_compat; [exact S0|discriminate]. }
  assert (Q1 : (d * 100 <= inject_Z 100)%Q).
  { apply Qle_trans with (1 * 100)%Q; [|discriminate].
    apply Qmult_le_compat_r; [exact S1|discriminate]. }
  split; [now apply b64_nonneg|].
  apply (b64_le_Z _ 100); [exact Q0|exact Q1|reflexivity].
Qed.

Lemma mul_zero_percent : (Num.py_round (Num.mul 0 100) 2 == 0)%Q.
Proof. rewrite mul_zero. apply py_round_zero. Qed.

(** ** The methods return, and what they return *)

Lemma add_request_run (m : RequestMetrics) (s : State) :
  add_request m s
  = Ok (tt, mkState (after_add_request m (self s)) (emit [request_line m] (world s))).
Proof.
  cbv [add_request bind modify_self endpoint_stats_getitem
    endpoint_stats_store get_self lift logger_emit ret]. simpl.
  unfold after_add_request, stats_at, bump, set_endpoint_stats, set_requests,
    emit, request_line, key_of, is_error. simpl.
  destruct (endpoint_stats (self s) !! endpoint_key (method m) (endpoint m)) as [st|] eqn:E;
    simpl.
  - destruct (400 <=? status_code m); reflexivity.
  - rewrite insert_insert_eq. destruct (400 <=? status_code m); reflexivity.
Qed.

Lemma add_system_metrics_run (m : SystemMetrics) (s : State) :
  add_system_metrics m s
  = Ok (tt, mkState (set_system_metrics (deque_append (system_metrics (self s)) m) (self s))
              (emit (snapshot_lines m) (world s))).
Proof.
  cbv [add_system_metrics bind modify_self lift logger_emit ret
    snapshot_lines emit]. simpl.
  destruct (Num.gtb (cpu_percent m) 80), (Num.gtb (memory_percent m) 80); simpl;
    rewrite <- ?app_assoc, ?app_nil_r; try reflexivity.
  destruct s as [c [l wl k]]; reflexivity.
Qed.

Lemma endpoint_loop_run (its : list (string * EndpointStats))
    (acc : gmap string EndpointSummary) (s : State) :
  endpoint_loop its acc s = Ok (summaries its acc, s).
Proof.
  revert acc. induction its as [|[k st] its IH]; intros acc; [reflexivity|].
  cbn [endpoint_loop summaries fold_left]. unfold bind at 1.
  destruct (0 <? count st) eqn:E.
  - unfold try at 1. rewrite py_div_of_int by assumption.
    unfold bind at 1. unfold try at 1. rewrite py_div_pos by assumption.
    rewrite IH. unfold summaries, summarize. simpl. rewrite E. reflexivity.
  - unfold ret at 1. unfold bind at 1. unfold ret at 1.
    rewrite IH. unfold summaries, summarize. simpl. rewrite E. reflexivity.
Qed.

Lemma deque_current (A : Type) (d : deque A) (s : State) :
  (if deque_nonempty d
   then let* m := try (deque_last d) in ret (Some m)
   else ret None) s = Ok (last (items d), s).
Proof.
  unfold deque_nonempty, deque_last, bind, try, ret.
  destruct (items d) as [|x l] eqn:E; [reflexivity|].
  destruct (last (x :: l)) eqn:L; [reflexivity|].
  apply last_None in L. discriminate.
Qed.

Lemma get_stats_run (s : State) :
  get_stats s
  = Ok (stats_of (wall (world s) (reads (world s))) (self s),
        mkState (self s) (tick (world s))).
Proof.
  unfold get_stats. unfold bind at 1. unfold lift, datetime_now.
  unfold bind at 1. unfold get_self. cbn [self world].
  set (now := wall (world s) (reads (world s))).
  set (s1 := mkState (self s) _).
  assert (E1 : (if 0 <? len (items (requests (self s)))
                then try (py_div (inject_Z (len (List.filter
                             (fun r => 400 <=? status_code r)
                             (items (requests (self s))))))
                                 (inject_Z (len (items (requests (self s))))))
                else ret 0%Q) s1
               = Ok (error_rate_of (items (requests (self s))), s1)).
  { unfold error_rate_of.
    destruct (0 <? len (items (requests (self s)))) eqn:E; [|reflexivity].
    unfold try. rewrite py_div_pos by assumption. reflexivity. }
  assert (E2 : (match List.map response_time (items (requests (self s))) with
                | _ :: _ => try (py_div
                    (Num.py_sum (List.map response_time (items (requests (self s)))))
                    (Num.of_int (len (List.map response_time (items (requests (self s)))))))
                | [] => ret 0%Q
                end) s1
               = Ok (avg_response_time_of (items (requests (self s))), s1)).
  { unfold avg_response_time_of.
    destruct (List.map response_time (items (requests (self s)))) as [|x l] eqn:E;
      [reflexivity|].
    unfold try. rewrite py_div_of_int; [reflexivity|].
    apply Z.ltb_lt. unfold len. simpl. lia. }
  unfold bind at 1. rewrite E1.
  unfold bind at 1. rewrite E2.
  unfold bind at 1. rewrite deque_current.
  unfold bind at 1. rewrite endpoint_loop_run.
  reflexivity.
Qed.

Lemma get_health_status_run (s : State) :
  get_health_status s
  = Ok (health_of (stats_of (wall (world s) (reads (world s))) (self s))
                  (wall (world s) (S (reads (world s)))),
        mkState (self s) (tick (tick (world s)))).
Proof.
  unfold get_health_status. unfold bind at 1. rewrite get_stats_run.
  set (stats := stats_of _ _).
  unfold bind, lift, datetime_now, ret. cbn [self world tick reads wall log].
  unfold health_of, rule_issues. f_equal. f_equal. f_equal.
  - destruct (Num.gtb (error_rate_percent stats) 10),
      (Num.gtb (avg_response_time_ms stats) 5000),
      (current_system stats) as [sys|];
      try destruct (Num.gtb (cpu_percent sys) 90);
      try destruct (Num.gtb (memory_percent sys) 90); reflexivity.
  - destruct (Num.gtb (error_rate_percent stats) 10),
      (Num.gtb (avg_response_time_ms stats) 5000),
      (current_system stats) as [sys|];
      try destruct (Num.gtb (cpu_percent sys) 90);
      try destruct (Num.gtb (memory_percent sys) 90); reflexivity.
Qed.

Lemma log_request_run (e m : string) (sc : Z) (rt : Q)
    (ua ip err : option string) (s : State) :
  let metrics := mkRequestMetrics e m sc rt (wall (world s) (reads (world s))) ua ip err in
  log_request e m sc rt ua ip err s
  = Ok (tt, mkState (after_add_request metrics (self s))
              (emit (request_line metrics :: classification_lines e m sc rt err)
                 (tick (world s)))).
Proof.
  intros metrics. unfold log_request. unfold bind at 1. unfold lift at 1, datetime_now.
  fold metrics. unfold bind at 1. rewrite add_request_run.
  unfold classification_lines, lift, logger_emit, ret, emit, tick.
  cbn [self world log wall reads].
  destruct (500 <=? sc); [|destruct (400 <=? sc); [|destruct (Num.gtb rt 10)]];
    cbn [self world log wall reads]; rewrite <- ?app_assoc, ?app_nil_r; reflexivity.
Qed.

Create Rewrite HintDb runs.
#[local] Hint Rewrite add_request_run add_system_metrics_run get_stats_run
  get_health_status_run log_request_run : runs.

Lemma exec_run (o : Op) (s : State) :
  exec o s = Ok (tt, mkState (exec_self o (world s) (self s)) (exec_world o (world s))).
Proof.
  destruct s as [c [l wl k]].
  destruct o; unfold exec, exec_self, exec_world, exec_lines, bind;
    autorewrite with runs; unfold ret, tick; cbn; rewrite ?app_nil_r; reflexivity.
Qed.

Lemma exec_world_wall (o : Op) (w : World) : wall (exec_world o w) = wall w.
Proof. reflexivity. Qed.

Lemma exec_world_reads (o : Op) (w : World) :
  reads (exec_world o w) = (clock_reads o + reads w)%nat.
Proof. reflexivity. Qed.

Lemma exec_self_start_time (o : Op) (w : World) (c : MetricsCollector) :
  start_time (exec_self o w c) = start_time c.
Proof. destruct o; reflexivity. Qed.

Lemma inserted_by_world (o : Op) (w : World) :
  inserted_by o w = inserted_by o (mkWorld [] (wall w) (reads w)).
Proof. destruct o; reflexivity. Qed.

(** ** The window *)

Lemma tail_drop1 (A : Type) (l : list A) : tail l = drop 1 l.
Proof. destruct l; [reflexivity|]. simpl. now rewrite drop_0. Qed.

Lemma lastn_length (A : Type) (n : nat) (l : list A) :
  length (lastn n l) = Nat.min n (length l).
Proof. unfold lastn. rewrite length_drop. lia. Qed.

Lemma lastn_snoc (A : Type) (n : nat) (h : list A) (m : A) :
  lastn n (h ++ [m])
  = if (n <? length (lastn n h ++ [m]))%nat
    then tail (lastn n h ++ [m]) else lastn n h ++ [m].
Proof.
  rewrite length_app, lastn_length. unfold lastn. rewrite length_app. simpl.
  destruct (Nat.ltb_spec n (Nat.min n (length h) + 1)) as [H|H].
  - assert (Hle : (n <= length h)%nat) by lia.
    replace (length h + 1 - n)%nat with ((length h - n) + 1)%nat by lia.
    rewrite tail_drop1, <- (drop_app_le h [m]) by lia.
    now rewrite drop_drop.
  - replace (length h + 1 - n)%nat with 0%nat by lia.
    replace (length h - n)%nat with 0%nat by lia.
    reflexivity.
Qed.

Lemma deque_append_items (A : Type) (d : deque A) (h : list A) (m : A) :
  0 <= maxlen d ->
  items d = lastn (Z.to_nat (maxlen d)) h ->
  items (deque_append d m) = lastn (Z.to_nat (maxlen d)) (h ++ [m]).
Proof.
  intros Hn Hi. rewrite lastn_snoc. unfold deque_append. rewrite Hi.
  set (l := lastn _ h ++ [m]).
  destruct (Z.ltb_spec (maxlen d) (Z.of_nat (length l))) as [H|H];
    destruct (Nat.ltb_spec (Z.to_nat (maxlen d)) (length l)) as [H'|H'];
    try reflexivity; lia.
Qed.

Lemma deque_append_maxlen (A : Type) (d : deque A) (m : A) :
  maxlen (deque_append d m) = maxlen d.
Proof. unfold deque_append. now destruct (_ <? _). Qed.

(** ** The aggregates *)

Lemma with_key_snoc (key : string) (h : list RequestMetrics) (m : RequestMetrics) :
  with_key key (h ++ [m])
  = with_key key h ++ (if decide (key_of m = key) then [m] else []).
Proof.
  unfold with_key. rewrite List.filter_app. simpl.
  destruct (decide (key_of m = key)) as [E|E].
  - now rewrite bool_decide_eq_true_2.
  - now rewrite bool_decide_eq_false_2.
Qed.

Lemma aggregate_snoc_same (h : list RequestMetrics) (m : RequestMetrics) :
  aggregate (key_of m) (h ++ [m])
  = Some (bump m (default default_endpoint_stats (aggregate (key_of m) h))).
Proof.
  unfold aggregate. rewrite with_key_snoc.
  rewrite decide_True by reflexivity.
  set (l := with_key (key_of m) h).
  destruct l as [|r l'] eqn:El.
  - simpl. unfold bump, len. simpl. destruct (is_error m); reflexivity.
  - rewrite <- El. clear El.
    destruct (l ++ [m]) as [|r' l''] eqn:E; [destruct l; discriminate|].
    rewrite <- E. clear E r' l''.
    unfold bump. cbn [default count total_time errors last_called].
    rewrite List.map_app, List.filter_app, last_snoc. simpl.
    rewrite accumulated_snoc. unfold len. rewrite !length_app.
    destruct (is_error m); simpl; do 2 f_equal; lia.
Qed.

Lemma aggregate_snoc_other (key : string) (h : list RequestMetrics) (m : RequestMetrics) :
  key_of m <> key -> aggregate key (h ++ [m]) = aggregate key h.
Proof.
  intros H. unfold aggregate. rewrite with_key_snoc.
  rewrite decide_False by assumption. now rewrite app_nil_r.
Qed.

(** ** The invariant holds in every session *)

Section Invariant.

Variable n : Z.
Hypothesis Hn : 0 <= n.

Lemma tracks_init (w : World) :
  exists c, __init__ n w = Ok (c, after_init w) /\ Tracks n [] c
            /\ start_time c = wall w (reads w)
            /\ items (system_metrics c) = [].
Proof.
  unfold __init__, bind, try, deque_new, datetime_now, ret.
  destruct (Z.ltb_spec n 0) as [H|H]; [lia|]. simpl.
  eexists. split; [reflexivity|]. repeat split.
Qed.

Lemma tracks_add_request (h : list RequestMetrics) (c : MetricsCollector)
    (m : RequestMetrics) :
  Tracks n h c -> Tracks n (h ++ [m]) (after_add_request m c).
Proof.
  intros [Hm Hi Hs]. split; cbn [after_add_request requests endpoint_stats].
  - now rewrite deque_append_maxlen.
  - rewrite <- Hm. apply deque_append_items; [lia|]. now rewrite Hm.
  - intros key. destruct (decide (key_of m = key)) as [E|E].
    + subst key. rewrite lookup_insert_eq, aggregate_snoc_same.
      unfold stats_at. now rewrite Hs.
    + rewrite lookup_insert_ne by assumption.
      rewrite aggregate_snoc_other by assumption. apply Hs.
Qed.

Lemma tracks_exec (h : list RequestMetrics) (o : Op) (w : World)
    (c : MetricsCollector) :
  Tracks n h c -> Tracks n (h ++ inserted_by o w) (exec_self o w c).
Proof.
  intros T. destruct o; cbn [exec_self inserted_by fold_left];
    rewrite ?app_nil_r; try assumption.
  - now apply tracks_add_request.
  - destruct T as [Hm Hi Hs]. split; assumption.
  - now apply tracks_add_request.
Qed.

Lemma tracks_run (ops : list Op) :
  forall (h : list RequestMetrics) (s : State),
    Tracks n h (self s) ->
    exists s', run ops s = Ok (tt, s')
      /\ Tracks n (h ++ inserted_from (wall (world s)) (reads (world s)) ops) (self s')
      /\ start_time (self s') = start_time (self s).
Proof.
  induction ops as [|o ops IH]; intros h s T.
  - exists s. cbn. rewrite app_nil_r. auto.
  - cbn [run inserted_from]. unfold bind. rewrite exec_run.
    destruct (IH (h ++ inserted_by o (world s))
                 (mkState (exec_self o (world s) (self s)) (exec_world o (world s))))
      as (s' & R & T' & St).
    { cbn [self]. now apply tracks_exec. }
    exists s'. split; [exact R|]. cbn [self world] in T', St.
    rewrite exec_world_wall, exec_world_reads in T'.
    rewrite <- inserted_by_world, app_assoc. split; [exact T'|].
    now rewrite St, exec_self_start_time.
Qed.

Lemma session_tracks (ops : list Op) (w : World) :
  exists s, session n ops w = Ok s
    /\ Tracks n (inserted ops w) (self s)
    /\ start_time (self s) = wall w (reads w).
Proof.
  destruct (tracks_init w) as (c & I & T & St & _).
  destruct (tracks_run ops [] (mkState c (after_init w)) T) as (s & R & T' & St').
  exists s. unfold session. rewrite I, R. split; [reflexivity|].
  split; [exact T'|]. now rewrite St'.
Qed.

Lemma tracks_length (h : list RequestMetrics) (c : MetricsCollector) :
  Tracks n h c -> len (items (requests c)) = Z.min (len h) n.
Proof.
  intros [_ Hi _]. unfold len. rewrite Hi, lastn_length. lia.
Qed.

Lemma tracks_stats_at (h : list RequestMetrics) (c : MetricsCollector)
    (key : string) :
  Tracks n h c ->
  count (stats_at c key) = len (with_key key h)
  /\ errors (stats_at c key) = len (List.filter is_error (with_key key h)).
Proof.
  intros [_ _ Hs]. unfold stats_at. rewrite Hs. unfold aggregate.
  destruct (with_key key h); split; reflexivity.
Qed.

End Invariant.

(** ** Endpoint keys and (method, endpoint) pairs *)

(** The key string determines method and endpoint when methods contain no
    space, as HTTP methods do. *)
Lemma endpoint_key_inj (m1 e1 m2 e2 : string) :
  has_space m1 = false -> has_space m2 = false ->
  endpoint_key m1 e1 = endpoint_key m2 e2 -> m1 = m2 /\ e1 = e2.
Proof.
  unfold endpoint_key. revert m2.
  induction m1 as [|c m1 IH]; intros [|c' m2] H1 H2 E;
    cbn [has_space] in H1, H2;
    cbv [String.append] in E; fold String.append in E.
  - injection E as ->. auto.
  - injection E as <- _. discriminate.
  - injection E as -> _. discriminate.
  - injection E as -> E.
    destruct (Ascii.eqb c' " "%char); [discriminate|].
    destruct (IH m2 H1 H2 E) as [-> ->]. auto.
Qed.

(** Without that proviso two pairs can share a key. *)
Example endpoint_key_collision :
  endpoint_key "GET" "a b" = endpoint_key "GET a" "b".
Proof. reflexivity. Qed.

(** ** Floats in the scenarios *)

(** [0.1] is 3602879701896397 / 2^55, and [0.1 + 0.2] is not [0.3] but
    the float above it, [0.30000000000000004]. *)
Example tenth_and_fifth :
  (tenth == 3602879701896397 # 36028797018963968)%Q
  /\ (Num.add tenth fifth == Num.b64 (30000000000000004 # 100000000000000000))%Q
  /\ (three_tenths < Num.add tenth fifth)%Q.
Proof. repeat split; vm_compute; reflexivity. Qed.

(** Rounding at the ends of the format: an [int] of 54 digits goes to the
    even neighbour, a third has 53 digits, and half of the least positive
    float goes to zero. *)
Example rounding_to_binary64 :
  (Num.of_int (2 ^ 53 + 1) == inject_Z (2 ^ 53))%Q
  /\ (Num.of_int (2 ^ 53 + 3) == inject_Z (2 ^ 53 + 4))%Q
  /\ (Num.b64 (1 # 3) == 6004799503160661 # 18014398509481984)%Q
  /\ (Num.b64 (2 ^ (-1074)) == 2 ^ (-1074))%Q
  /\ (Num.b64 (2 ^ (-1075)) == 0)%Q
  /\ (Num.b64 (3 * 2 ^ (-1075)) == 2 ^ (-1073))%Q.
Proof. repeat split; vm_compute; reflexivity. Qed.

(** [23 / 160 * 100] is a float below 14.375, and [round] takes it to
    14.37: the rate of 23 failures among 160 requests, for the buffer and
    for the endpoint. *)
Example rate_of_23_in_160 :
  exists s stats s' sm,
    session default_max_requests failures_23_of_160 clock0 = Ok s
    /\ get_stats s = Ok (stats, s')
    /\ (Num.mul (Num.div 23 160) 100 < 14375 # 1000)%Q
    /\ (error_rate_percent stats == Num.b64 (1437 # 100))%Q
    /\ endpoints stats !! "GET /a" = Some sm
    /\ (error_rate sm == Num.b64 (1437 # 100))%Q.
Proof.
  do 4 eexists. split; [vm_compute; reflexivity|].
  split; [apply get_stats_run|]. repeat split; vm_compute; reflexivity.
Qed.

(** The average of 0.15 s and 0.251 s is reported as 0.201: the two numbers
    add up to less than 0.401, and their sum as a float is above it. *)
Example average_of_two_response_times :
  exists s stats s' sm,
    session default_max_requests two_response_times clock0 = Ok s
    /\ get_stats s = Ok (stats, s')
    /\ (Num.b64 (15 # 100) + Num.b64 (251 # 1000) < 401 # 1000)%Q
    /\ (401 # 1000 < Num.add (Num.b64 (15 # 100)) (Num.b64 (251 # 1000)))%Q
    /\ endpoints stats !! "GET /a" = Some sm
    /\ (avg_response_time sm == Num.b64 (201 # 1000))%Q
    /\ (avg_response_time_ms stats == Num.b64 (2005 # 10))%Q.
Proof.
  do 4 eexists. split; [vm_compute; reflexivity|].
  split; [apply get_stats_run|]. repeat split; vm_compute; reflexivity.
Qed.

(** ** The scenarios of the source's self-test *)

Example self_test_stats :
  exists s stats s',
    session default_max_requests self_test clock0 = Ok s
    /\ get_stats s = Ok (stats, s')
    /\ total_requests stats = 10
    /\ (error_rate_percent stats == 20)%Q
    /\ (avg_response_time_ms stats == 325)%Q
    /\ call_count (self s) "GET /api/test" = 10
    /\ error_count (self s) "GET /api/test" = 2.
Proof.
  do 3 eexists. split; [vm_compute; reflexivity|].
  split; [apply get_stats_run|]. repeat split; vm_compute; reflexivity.
Qed.

Example self_test_health :
  exists s h s',
    session default_max_requests self_test clock0 = Ok s
    /\ get_health_status s = Ok (h, s')
    /\ status h = "degraded"
    /\ List.map (fun i => match i with High_error_rate _ => true | _ => false end)
         (issues h) = [true].
Proof.
  do 3 eexists. split; [vm_compute; reflexivity|].
  split; [apply get_health_status_run|]. split; vm_compute; reflexivity.
Qed.

Example hot_cpu_health :
  exists s h s',
    session default_max_requests [Add_system_metrics hot_cpu] clock0 = Ok s
    /\ get_health_status s = Ok (h, s')
    /\ status h = "degraded"
    /\ issues h = [High_CPU 95].
Proof.
  do 3 eexists. split; [vm_compute; reflexivity|].
  split; [apply get_health_status_run|]. split; vm_compute; reflexivity.
Qed.

Example negative_capacity_raises (w : World) :
  session (-1) [] w = Raise ValueError.
Proof. reflexivity. Qed.

Example zero_capacity_keeps_nothing :
  exists s, session 0 three_inserts clock0 = Ok s
    /\ items (requests (self s)) = []
    /\ call_count (self s) "GET /a" = 2.
Proof. eexists. split; [vm_compute; reflexivity|]. split; reflexivity. Qed.

(** * The claims *)

(** Closes a goal [Forall (fun r => ordinary (response_time r)) l] for a
    given list [l]. *)
Ltac all_ordinary :=
  repeat first
    [ apply List.Forall_nil
    | apply List.Forall_cons;
      [split; [vm_compute; reflexivity|apply Qle_bool_iff; vm_compute; reflexivity]|] ].

(** Closes a goal [m s = Ok (?r, ?s')] for a method [m]. *)
Ltac returns :=
  first [ apply get_stats_run | apply get_health_status_run
        | apply add_request_run | apply log_request_run ].

(** C1. A collector built with capacity [n] and then used by any sequence
    of calls never buffers more than [n] samples: the buffer holds the last
    [n] samples inserted, [total_requests] of [get_stats] is the number of
    insertions while that is at most [n] and [n] afterwards, and an
    insertion into a full buffer drops the oldest sample and nothing else. *)
Theorem C1_window_bounded_fifo (n : Z) (ops : list Op) (w : World) (Hn : 0 <= n) :
  exists s stats s',
    session n ops w = Ok s
    /\ len (items (requests (self s))) <= n
    /\ items (requests (self s)) = lastn (Z.to_nat n) (inserted ops w)
    /\ get_stats s = Ok (stats, s')
    /\ (len (inserted ops w) <= n -> total_requests stats = len (inserted ops w))
    /\ (n < len (inserted ops w) -> total_requests stats = n)
    /\ forall m : RequestMetrics, exists s'',
         add_request m s = Ok (tt, s'')
         /\ (len (items (requests (self s))) < n ->
             items (requests (self s'')) = items (requests (self s)) ++ [m])
         /\ (forall oldest rest,
               items (requests (self s)) = oldest :: rest ->
               len (items (requests (self s))) = n ->
               items (requests (self s'')) = rest ++ [m]).
Proof.
  destruct (session_tracks n Hn ops w) as (s & Hs & T & _).
  pose proof (tracks_length n Hn _ _ T) as L.
  exists s. eexists. eexists.
  split; [exact Hs|]. split; [lia|]. split; [apply T|].
  split; [returns|].
  cbn [stats_of total_requests].
  split; [lia|]. split; [lia|].
  intros m. eexists. split; [returns|].
  cbn [self after_add_request requests]. unfold deque_append.
  rewrite (tracks_maxlen _ _ _ T), length_app. cbn [length].
  unfold len in *. split.
  - intros Hlt. destruct (Z.ltb_spec n (Z.of_nat (length (items (requests (self s))) + 1)));
      [lia|reflexivity].
  - intros oldest rest E Hfull. rewrite E in *. cbn [length] in *.
    destruct (Z.ltb_spec n (Z.of_nat (S (length rest) + 1))); [reflexivity|lia].
Qed.

Lemma C1_witness :
  0 <= 2
  /\ exists s, session 2 three_inserts clock0 = Ok s
       /\ items (requests (self s)) = [sample_b; sample_c].
Proof.
  split; [lia|].
  destruct (C1_window_bounded_fifo 2 three_inserts clock0 ltac:(lia))
    as (s & _ & _ & Hs & _ & Hi & _).
  exists s. split; [exact Hs|]. rewrite Hi. reflexivity.
Defined.

(** C2. [get_health_status] applies four rules to the result of
    [get_stats], in this order: error rate above 10, average response time
    above 5000 ms, latest snapshot present with CPU above 90, latest snapshot
    present with memory above 90. Each rule that holds appends its issue.
    The status is "healthy" for no issue, "degraded" for one or two,
    "unhealthy" for three or more. *)
Theorem C2_health_rules (s : State) :
  exists stats s1 h s2,
    get_stats s = Ok (stats, s1)
    /\ get_health_status s = Ok (h, s2)
    /\ issues h
       = issue_if (10 < error_rate_percent stats)%Q
           (High_error_rate (error_rate_percent stats))
         ++ issue_if (5000 < avg_response_time_ms stats)%Q
              (Slow_response_time (avg_response_time_ms stats))
         ++ match current_system stats with
            | Some sys =>
                issue_if (90 < cpu_percent sys)%Q (High_CPU (cpu_percent sys))
                ++ issue_if (90 < memory_percent sys)%Q (High_memory (memory_percent sys))
            | None => []
            end
    /\ (length (issues h) = 0%nat -> status h = "healthy")
    /\ ((1 <= length (issues h) <= 2)%nat -> status h = "degraded")
    /\ ((3 <= length (issues h))%nat -> status h = "unhealthy")
    /\ (forall sys,
          current_system stats = Some sys ->
          (10 < error_rate_percent stats)%Q ->
          (5000 < avg_response_time_ms stats)%Q ->
          (90 < cpu_percent sys)%Q ->
          (90 < memory_percent sys)%Q ->
          status h = "unhealthy" /\ length (issues h) = 4%nat)
    /\ ((error_rate_percent stats <= 10)%Q ->
        (avg_response_time_ms stats <= 5000)%Q ->
        (forall sys, current_system stats = Some sys ->
                     (cpu_percent sys <= 90)%Q /\ (memory_percent sys <= 90)%Q) ->
        status h = "healthy" /\ issues h = []).
Proof.
  do 4 eexists. split; [returns|]. split; [returns|].
  set (stats := stats_of _ _). cbn [issues status health_of].
  assert (E : rule_issues stats
              = issue_if (10 < error_rate_percent stats)%Q
                  (High_error_rate (error_rate_percent stats))
                ++ issue_if (5000 < avg_response_time_ms stats)%Q
                     (Slow_response_time (avg_response_time_ms stats))
                ++ match current_system stats with
                   | Some sys =>
                       issue_if (90 < cpu_percent sys)%Q (High_CPU (cpu_percent sys))
                       ++ issue_if (90 < memory_percent sys)%Q
                            (High_memory (memory_percent sys))
                   | None => []
                   end).
  { unfold rule_issues. rewrite !gtb_issue_if.
    destruct (current_system stats); [|reflexivity]. now rewrite !gtb_issue_if. }
  split; [exact E|].
  split; [intros ->; reflexivity|].
  split. { intros H. destruct (length (rule_issues stats)) as [|[|[|k]]]; try lia; reflexivity. }
  split. { intros H. destruct (length (rule_issues stats)) as [|[|[|k]]]; try lia; reflexivity. }
  split.
  - intros sys Hsys H1 H2 H3 H4. rewrite E, Hsys. unfold issue_if.
    rewrite !decide_True by assumption. split; reflexivity.
  - intros H1 H2 H3. rewrite E. unfold issue_if.
    rewrite (decide_False (P := (10 < _)%Q)) by now apply Qle_not_lt.
    rewrite (decide_False (P := (5000 < _)%Q)) by now apply Qle_not_lt.
    destruct (current_system stats) as [sys|]; [|split; reflexivity].
    destruct (H3 sys eq_refl) as [H4 H5].
    rewrite (decide_False (P := (90 < cpu_percent sys)%Q)) by now apply Qle_not_lt.
    rewrite (decide_False (P := (90 < memory_percent sys)%Q)) by now apply Qle_not_lt.
    split; reflexivity.
Qed.

(** C3 (as the code has it). [error_rate_percent] of [get_stats] is 0 for
    an empty buffer. Otherwise it is [round(share * 100, 2)], where [share]
    is the number of buffered samples with a status code of 400 or more
    divided by the number of buffered samples: quotient and product are
    floats, each rounded to binary64, and [round] takes the value of the
    product to two decimals. It is 0 when no buffered sample has such a
    status, and 100 when the buffer is not empty and every buffered sample
    has one. *)
Theorem C3_error_rate_rounded (s : State) :
  exists stats s',
    get_stats s = Ok (stats, s')
    /\ (items (requests (self s)) = [] -> (error_rate_percent stats == 0)%Q)
    /\ (items (requests (self s)) <> [] ->
        error_rate_percent stats
        = Num.py_round
            (Num.mul
               (Num.div
                  (inject_Z (len (List.filter is_error (items (requests (self s))))))
                  (inject_Z (len (items (requests (self s))))))
               100) 2)
    /\ (Forall (fun r => status_code r < 400) (items (requests (self s))) ->
        (error_rate_percent stats == 0)%Q)
    /\ (items (requests (self s)) <> [] ->
        Forall (fun r => 400 <= status_code r) (items (requests (self s))) ->
        (error_rate_percent stats == 100)%Q).
Proof.
  do 2 eexists. split; [returns|].
  cbn [stats_of error_rate_percent]. set (rs := items (requests (self s))).
  assert (Hpos : rs <> [] -> (0 <? len rs) = true).
  { destruct rs; [congruence|]. intros _. apply Z.ltb_lt. unfold len. simpl. lia. }
  split; [intros ->; apply mul_zero_percent|]. split.
  { intros Hne. unfold error_rate_of. now rewrite (Hpos Hne). }
  split.
  - intros F. unfold error_rate_of. destruct (0 <? len rs); [|apply mul_zero_percent].
    rewrite filter_none.
    + change (inject_Z (len (@nil RequestMetrics))) with 0%Q.
      rewrite div_zero. apply mul_zero_percent.
    + eapply Forall_impl; [exact F|]. intros x Hx. unfold is_error. simpl in Hx.
      apply Z.leb_gt. exact Hx.
  - intros Hne F. unfold error_rate_of. rewrite (Hpos Hne), filter_all.
    + assert (E : (inject_Z (len rs) / inject_Z (len rs) == 1)%Q).
      { field. destruct rs; [congruence|]. apply len_pos_nonzero. }
      unfold Num.div. rewrite (b64_proper _ _ E). vm_compute. reflexivity.
    + eapply Forall_impl; [exact F|]. intros x Hx. unfold is_error. simpl in Hx.
      apply Z.leb_le. exact Hx.
Qed.

(** C3 (as stated) fails: with one failure among three buffered requests
    [get_stats] reports 33.33, which is not 100/3. *)
Lemma C3_counterexample :
  exists s stats s',
    session default_max_requests one_error_in_three clock0 = Ok s
    /\ get_stats s = Ok (stats, s')
    /\ (error_rate_percent stats == Num.b64 (3333 # 100))%Q
    /\ (exact_error_rate_percent (items (requests (self s))) == 100 # 3)%Q
    /\ ~ reports_exact_error_rate s.
Proof.
  do 3 eexists. split; [vm_compute; reflexivity|].
  split; [returns|].
  split; [vm_compute; reflexivity|]. split; [vm_compute; reflexivity|].
  intros H. specialize (H _ _ (get_stats_run _)). vm_compute in H. discriminate.
Qed.

(** C4. For every endpoint key (the string "METHOD path" that the code
    builds; see [endpoint_key_inj] for pairs), [count] is the number of
    samples ever inserted with that key, whatever the buffer has dropped
    since. Each
    insertion adds exactly one to the count of its own key and leaves every
    other key alone, also when it pushes a sample of another key out of a
    full buffer; it adds one to [errors] of its key exactly when its status
    code is at least 400. *)
Theorem C4_call_count_lifetime (n : Z) (ops : list Op) (w : World) (Hn : 0 <= n) :
  exists s,
    session n ops w = Ok s
    /\ (forall key, call_count (self s) key = len (with_key key (inserted ops w)))
    /\ forall m : RequestMetrics, exists s',
         add_request m s = Ok (tt, s')
         /\ call_count (self s') (key_of m) = call_count (self s) (key_of m) + 1
         /\ (forall key, key <> key_of m ->
               call_count (self s') key = call_count (self s) key)
         /\ (forall oldest rest,
               items (requests (self s)) = oldest :: rest ->
               len (items (requests (self s))) = n ->
               items (requests (self s')) = rest ++ [m]
               /\ (key_of oldest <> key_of m ->
                   call_count (self s') (key_of oldest)
                   = call_count (self s) (key_of oldest)))
         /\ (error_count (self s') (key_of m) = error_count (self s) (key_of m) + 1
             <-> 400 <= status_code m)
         /\ (error_count (self s') (key_of m) = error_count (self s) (key_of m)
             <-> status_code m < 400).
Proof.
  destruct (session_tracks n Hn ops w) as (s & Hs & T & _).
  exists s. split; [exact Hs|]. split.
  { intros key. apply (tracks_stats_at n _ _ key T). }
  intros m. eexists. split; [returns|].
  cbn [self]. unfold call_count, error_count.
  assert (Same : stats_at (after_add_request m (self s)) (key_of m)
                 = bump m (stats_at (self s) (key_of m))).
  { unfold stats_at at 1. cbn [after_add_request endpoint_stats].
    now rewrite lookup_insert_eq. }
  assert (Other : forall key, key <> key_of m ->
                    stats_at (after_add_request m (self s)) key = stats_at (self s) key).
  { intros key Hk. unfold stats_at. cbn [after_add_request endpoint_stats].
    rewrite lookup_insert_ne by congruence. reflexivity. }
  rewrite Same. cbn [bump count errors]. unfold is_error.
  split; [reflexivity|]. split; [intros key Hk; now rewrite Other|]. split.
  { intros oldest rest E Hfull. split; [|intros Hk; now rewrite Other].
    cbn [after_add_request requests]. unfold deque_append.
    rewrite (tracks_maxlen _ _ _ T), E, length_app. cbn [length].
    unfold len in Hfull. rewrite E in Hfull. cbn [length] in Hfull.
    destruct (Z.ltb_spec n (Z.of_nat (S (length rest) + 1))); [reflexivity|lia]. }
  destruct (Z.leb_spec 400 (status_code m)); split; split; intros; lia.
Qed.

Lemma C4_witness :
  0 <= 2
  /\ exists s, session 2 three_inserts clock0 = Ok s
       /\ call_count (self s) "GET /a" = 2
       /\ len (with_key "GET /a" (items (requests (self s)))) = 1.
Proof.
  split; [lia|].
  destruct (C4_call_count_lifetime 2 three_inserts clock0 ltac:(lia))
    as (s & Hs & Hc & _).
  exists s. split; [exact Hs|]. split; [rewrite Hc; reflexivity|].
  vm_compute in Hs. injection Hs as <-. reflexivity.
Defined.




(** C6. [get_health_status] returns a record in every state and never
    raises. On a collector that has just been built, it reports "healthy"
    with no issue, and [get_stats] reports an error rate of zero. *)
Theorem C6_health_total (s : State) (n : Z) (w : World) (Hn : 0 <= n) :
  (exists h s', get_health_status s = Ok (h, s'))
  /\ exists c w' stats s1 h s2,
       __init__ n w = Ok (c, w')
       /\ items (requests c) = []
       /\ items (system_metrics c) = []
       /\ get_stats (mkState c w') = Ok (stats, s1)
       /\ get_health_status (mkState c w') = Ok (h, s2)
       /\ status h = "healthy"
       /\ issues h = []
       /\ health_total_requests h = 0
       /\ (error_rate_percent stats == 0)%Q.
Proof.
  split. { do 2 eexists. returns. }
  destruct (tracks_init n Hn w) as (c & I & T & _ & Sm).
  exists c, (after_init w). do 4 eexists.
  split; [exact I|].
  assert (Rq : items (requests c) = []) by (rewrite (tracks_items _ _ _ T); reflexivity).
  split; [exact Rq|]. split; [exact Sm|].
  split; [returns|]. split; [returns|].
  cbn [self world status issues health_total_requests health_of].
  set (stats := stats_of _ c).
  assert (E0 : (error_rate_percent stats == 0)%Q).
  { unfold stats. cbn [stats_of error_rate_percent]. rewrite Rq.
    unfold error_rate_of. cbn [len length Z.of_nat Z.ltb Z.compare].
    apply mul_zero_percent. }
  assert (A0 : (avg_response_time_ms stats == 0)%Q).
  { unfold stats. cbn [stats_of avg_response_time_ms]. rewrite Rq.
    unfold avg_response_time_of. cbn [List.map].
    rewrite mul_zero. apply py_round_zero. }
  assert (R : rule_issues stats = []).
  { unfold rule_issues. rewrite !gtb_issue_if. unfold issue_if.
    rewrite (decide_False (P := (10 < _)%Q)) by (rewrite E0; discriminate).
    rewrite (decide_False (P := (5000 < _)%Q)) by (rewrite A0; discriminate).
    unfold stats. cbn [stats_of current_system]. rewrite Sm. reflexivity. }
  rewrite R. repeat split; try reflexivity.
  - unfold stats. cbn [stats_of total_requests]. now rewrite Rq.
  - exact E0.
Qed.

Lemma C6_witness :
  0 <= default_max_requests
  /\ exists h s', get_health_status (mkState
        (mkMetricsCollector default_max_requests
           (mkDeque [] default_max_requests) (mkDeque [] 100) ∅ 0) clock0) = Ok (h, s').
Proof.
  split; [unfold default_max_requests; lia|].
  apply (C6_health_total _ default_max_requests clock0).
  unfold default_max_requests; lia.
Defined.

(** C7. [log_request] returns and appends to the log, first, one
    informational line with method, endpoint, status code and response time,
    and then at most one more line: the server error line with the error
    message for a status of 500 or more, else the client error line for a
    status of 400 or more, else the slow request line for a response time
    above 10 seconds, else nothing. *)
Theorem C7_log_request_lines (e m : string) (sc : Z) (rt : Q)
    (ua ip err : option string) (s : State) :
  exists s' extra,
    log_request e m sc rt ua ip err s = Ok (tt, s')
    /\ log (world s')
       = log (world s) ++ mkLogRecord INFO (Msg_request m e sc rt) :: extra
    /\ (length extra <= 1)%nat
    /\ info_lines (mkLogRecord INFO (Msg_request m e sc rt) :: extra)
       = [mkLogRecord INFO (Msg_request m e sc rt)]
    /\ (500 <= sc -> extra = [mkLogRecord ERROR (Msg_server_error m e sc err)])
    /\ (400 <= sc < 500 -> extra = [mkLogRecord WARNING (Msg_client_error m e sc)])
    /\ (sc < 400 -> (10 < rt)%Q ->
        extra = [mkLogRecord WARNING (Msg_slow_request m e rt)])
    /\ (sc < 400 -> (rt <= 10)%Q -> extra = []).
Proof.
  exists (mkState
            (after_add_request
               (mkRequestMetrics e m sc rt (wall (world s) (reads (world s))) ua ip err)
               (self s))
            (emit (request_line
                     (mkRequestMetrics e m sc rt (wall (world s) (reads (world s))) ua ip err)
                   :: classification_lines e m sc rt err)
               (tick (world s)))),
    (classification_lines e m sc rt err).
  split; [returns|]. split; [reflexivity|].
  unfold classification_lines, info_lines.
  destruct (Z.leb_spec 500 sc) as [H5|H5];
    [|destruct (Z.leb_spec 400 sc) as [H4|H4];
      [|destruct (Num.gtb rt 10) eqn:G]];
    cbn [length List.filter level];
    (split; [lia|]); (split; [reflexivity|]);
    repeat split; intros; try lia; try reflexivity.
  - apply gtb_spec in G. exfalso. now apply (Qlt_not_le 10 rt).
  - assert (Num.gtb rt 10 = true) by now apply gtb_spec. congruence.
Qed.

(** C8 (as the code has it). Two calls of [get_stats] in a row, with no
    call in between, agree on [total_requests], [error_rate_percent],
    [avg_response_time_ms], [current_system] and [endpoints]. The other
    fields come from the clock reading of each call: the whole results are
    equal when the two readings are. *)
Theorem C8_get_stats_repeat (s : State) :
  exists a s1 b s2,
    get_stats s = Ok (a, s1)
    /\ get_stats s1 = Ok (b, s2)
    /\ total_requests a = total_requests b
    /\ error_rate_percent a = error_rate_percent b
    /\ avg_response_time_ms a = avg_response_time_ms b
    /\ current_system a = current_system b
    /\ endpoints a = endpoints b
    /\ (stats_timestamp a = stats_timestamp b -> a = b).
Proof.
  do 4 eexists. split; [returns|]. split; [returns|].
  cbn [self world tick wall reads].
  repeat (split; [reflexivity|]).
  cbn [stats_of stats_timestamp]. intros ->. reflexivity.
Qed.

(** C8 (as stated) fails: a collector built at time 0 holds one request
    stamped 0; a call at 200 s counts it among the recent requests and
    reports an uptime of 200 s, the next call at 400 s does neither. *)
Lemma C8_counterexample :
  exists s a s1 b s2,
    session default_max_requests one_request slow_clock = Ok s
    /\ get_stats s = Ok (a, s1)
    /\ get_stats s1 = Ok (b, s2)
    /\ self s1 = self s
    /\ (recent_requests_5min a = 1 /\ recent_requests_5min b = 0)
    /\ (uptime_seconds a = 200 /\ uptime_seconds b = 400)
    /\ (uptime_human a = "0:03:20" /\ uptime_human b = "0:06:40")
    /\ ~ repeat_differs_in_timestamp_only s.
Proof.
  do 5 eexists. split; [vm_compute; reflexivity|].
  split; [returns|]. split; [returns|].
  split; [reflexivity|].
  split; [split; vm_compute; reflexivity|].
  split; [split; vm_compute; reflexivity|].
  split; [split; vm_compute; reflexivity|].
  intros H. specialize (H _ _ _ _ (get_stats_run _) (get_stats_run _)).
  destruct H as (H & _). vm_compute in H. discriminate.
Qed.

(** C9. [get_stats] and [get_health_status] return without changing the
    collector: the request buffer, the snapshot buffer, the aggregate table
    and the start time are the same afterwards. *)
Theorem C9_queries_are_pure_reads (s : State) :
  (exists stats s',
     get_stats s = Ok (stats, s')
     /\ requests (self s') = requests (self s)
     /\ system_metrics (self s') = system_metrics (self s)
     /\ endpoint_stats (self s') = endpoint_stats (self s)
     /\ start_time (self s') = start_time (self s)
     /\ self s' = self s)
  /\ (exists h s',
        get_health_status s = Ok (h, s')
        /\ requests (self s') = requests (self s)
        /\ system_metrics (self s') = system_metrics (self s)
        /\ endpoint_stats (self s') = endpoint_stats (self s)
        /\ start_time (self s') = start_time (self s)
        /\ self s' = self s).
Proof.
  split; do 2 eexists.
  - split; [returns|]. repeat split.
  - split; [returns|]. repeat split.
Qed.

(** C10 (as the code has it). Every aggregate in the table of a collector,
    after any sequence of insertions and queries, has [0 <= errors <= count],
    and its [total_time] is what the chain of [+=] gives for the response
    times of all samples ever inserted with its key: they are added in the
    order of insertion, and every addition is rounded to binary64. With one
    such sample it is that sample's response time. *)
Theorem C10_aggregate_invariant (n : Z) (ops : list Op) (w : World) (Hn : 0 <= n)
    (Hrt : Forall (fun r => ordinary (response_time r)) (inserted ops w)) :
  exists s,
    session n ops w = Ok s
    /\ forall key st,
         endpoint_stats (self s) !! key = Some st ->
         0 <= errors st <= count st
         /\ total_time st
            = accumulated (List.map response_time (with_key key (inserted ops w)))
         /\ forall r, with_key key (inserted ops w) = [r] ->
              (total_time st == response_time r)%Q.
Proof.
  destruct (session_tracks n Hn ops w) as (s & Hs & T & _).
  exists s. split; [exact Hs|]. intros key st Hst.
  rewrite (tracks_stats _ _ _ T) in Hst. unfold aggregate in Hst.
  destruct (with_key key (inserted ops w)) as [|r l] eqn:E; [discriminate|].
  rewrite <- E in *. injection Hst as <-. cbn [errors count total_time].
  split; [apply filter_error_le|]. split; [reflexivity|].
  intros r' E'. rewrite E'. unfold accumulated. cbn [List.map fold_left].
  apply add_zero_l.
  assert (In : r' ∈ with_key key (inserted ops w)) by (rewrite E'; apply list_elem_of_here).
  unfold with_key in In. apply list_elem_of_In, List.filter_In in In as [In _].
  rewrite Forall_forall in Hrt. apply (Hrt r'). now apply list_elem_of_In.
Qed.

Lemma C10_witness :
  0 <= 2
  /\ Forall (fun r => ordinary (response_time r)) (inserted three_inserts clock0)
  /\ exists s, session 2 three_inserts clock0 = Ok s
       /\ forall st, endpoint_stats (self s) !! "GET /a" = Some st ->
            0 <= errors st <= count st
            /\ (total_time st == Num.b64 (4 # 10))%Q.
Proof.
  assert (Hrt : Forall (fun r => ordinary (response_time r))
                  (inserted three_inserts clock0)).
  { all_ordinary. }
  split; [lia|]. split; [exact Hrt|].
  destruct (C10_aggregate_invariant 2 three_inserts clock0 ltac:(lia) Hrt)
    as (s & Hs & Hinv).
  exists s. split; [exact Hs|]. intros st Hst.
  destruct (Hinv _ _ Hst) as (Hb & Ht & _). split; [exact Hb|].
  rewrite Ht. vm_compute. reflexivity.
Defined.

(** C10 (as stated) fails: after a request of 0.1 s and one of 0.2 s on the
    same endpoint [total_time] is 0.30000000000000004, the float next above
    the sum of the two response times; and the same three response times
    inserted in two orders leave two different totals. *)
Lemma C10_counterexample :
  exists s st s1 st1 s2 st2,
    session default_max_requests tenth_then_fifth clock0 = Ok s
    /\ endpoint_stats (self s) !! "GET /a" = Some st
    /\ (total_time st == Num.b64 (30000000000000004 # 100000000000000000))%Q
    /\ (total (List.map response_time (inserted tenth_then_fifth clock0))
        == tenth + fifth)%Q
    /\ (tenth + fifth < total_time st)%Q
    /\ ~ holds_exact_totals s (inserted tenth_then_fifth clock0)
    /\ session default_max_requests rising_times clock0 = Ok s1
    /\ session default_max_requests falling_times clock0 = Ok s2
    /\ endpoint_stats (self s1) !! "GET /a" = Some st1
    /\ endpoint_stats (self s2) !! "GET /a" = Some st2
    /\ (total_time st2 < total_time st1)%Q.
Proof.
  do 6 eexists. split; [vm_compute; reflexivity|].
  split; [vm_compute; reflexivity|].
  split; [vm_compute; reflexivity|]. split; [vm_compute; reflexivity|].
  split; [vm_compute; reflexivity|]. split.
  { intros H. specialize (H "GET /a" _ eq_refl). vm_compute in H. discriminate. }
  split; [vm_compute; reflexivity|]. split; [vm_compute; reflexivity|].
  split; [vm_compute; reflexivity|]. split; [vm_compute; reflexivity|].
  vm_compute. reflexivity.
Qed.

(** * Further properties *)

(** ** Whole sessions *)

Lemma run_run (ops : list Op) (s : State) : run ops s = Ok (tt, run_state ops s).
Proof.
  revert s. induction ops as [|o ops IH]; intros s; [reflexivity|].
  cbn [run run_state]. unfold bind. now rewrite exec_run, IH.
Qed.

Lemma run_state_app (ops1 ops2 : list Op) (s : State) :
  run_state (ops1 ++ ops2) s = run_state ops2 (run_state ops1 s).
Proof. revert s. induction ops1 as [|o ops1 IH]; intros s; [reflexivity|]. apply IH. Qed.

Lemma after_add_request_frame (m : RequestMetrics) (c : MetricsCollector) :
  max_requests (after_add_request m c) = max_requests c
  /\ start_time (after_add_request m c) = start_time c
  /\ system_metrics (after_add_request m c) = system_metrics c.
Proof. repeat split. Qed.

Lemma shaped_exec (n : Z) (t0 : datetime) (sn : list SystemMetrics) (o : Op)
    (w : World) (c : MetricsCollector) :
  Shaped n t0 sn c -> Shaped n t0 (sn ++ snapshots_by o) (exec_self o w c).
Proof.
  intros [H1 H2 H3 H4].
  destruct o; cbn [exec_self snapshots_by inserted_by fold_left];
    rewrite ?app_nil_r; try (split; assumption).
  split; try assumption; cbn [set_system_metrics system_metrics].
  - now rewrite deque_append_maxlen.
  - change 100%nat with (Z.to_nat 100). rewrite <- H3.
    apply deque_append_items; [lia|]. now rewrite H3.
Qed.

Lemma shaped_run (n : Z) (t0 : datetime) (ops : list Op) :
  forall (sn : list SystemMetrics) (s : State),
    Shaped n t0 sn (self s) ->
    Shaped n t0 (sn ++ snapshots ops) (self (run_state ops s)).
Proof.
  induction ops as [|o ops IH]; intros sn s H.
  - cbn. now rewrite app_nil_r.
  - cbn [run_state snapshots flat_map]. rewrite app_assoc. apply IH.
    cbn [self]. now apply shaped_exec.
Qed.

Lemma init_fresh (n : Z) (w : World) :
  0 <= n -> __init__ n w = Ok (fresh n (wall w (reads w)), after_init w).
Proof.
  intros Hn. unfold __init__, bind, try, deque_new, datetime_now, ret.
  destruct (Z.ltb_spec n 0) as [H|H]; [lia|]. reflexivity.
Qed.

Lemma init_negative (n : Z) (w : World) : n < 0 -> __init__ n w = Raise ValueError.
Proof.
  intros Hn. unfold __init__, bind, try, deque_new.
  destruct (Z.ltb_spec n 0) as [H|H]; [reflexivity|lia].
Qed.

Lemma fresh_tracks (n : Z) (t0 : datetime) : Tracks n [] (fresh n t0).
Proof. split; reflexivity. Qed.

Lemma fresh_shaped (n : Z) (t0 : datetime) : Shaped n t0 [] (fresh n t0).
Proof. split; reflexivity. Qed.

(** What is known of the final state of a session. *)
Lemma session_facts (n : Z) (ops : list Op) (w : World) :
  0 <= n ->
  exists s,
    session n ops w = Ok s
    /\ s = run_state ops (mkState (fresh n (wall w (reads w))) (after_init w))
    /\ Tracks n (inserted ops w) (self s)
    /\ Shaped n (wall w (reads w)) (snapshots ops) (self s).
Proof.
  intros Hn. eexists. split; [|split; [reflexivity|]].
  - unfold session. now rewrite init_fresh, run_run.
  - split.
    + destruct (tracks_run n Hn ops [] (mkState (fresh n (wall w (reads w))) (after_init w))
                  (fresh_tracks _ _)) as (s' & R & T & _).
      rewrite run_run in R. injection R as <-. exact T.
    + apply (shaped_run n _ ops []). apply fresh_shaped.
Qed.

Lemma collector_eq (n : Z) (t0 : datetime) (h : list RequestMetrics)
    (sn : list SystemMetrics) (c1 c2 : MetricsCollector) :
  Tracks n h c1 -> Shaped n t0 sn c1 ->
  Tracks n h c2 -> Shaped n t0 sn c2 ->
  c1 = c2.
Proof.
  intros [A1 A2 A3] [B1 B2 B3 B4] [E1 E2 E3] [D1 D2 D3 D4].
  destruct c1 as [m1 [r1 l1] [y1 k1] e1 t1], c2 as [m2 [r2 l2] [y2 k2] e2 t2].
  cbn in *. subst. f_equal; try congruence.
  apply map_eq. intros key. now rewrite A3, E3.
Qed.

Lemma last_lastn (A : Type) (n : nat) (l : list A) :
  (1 <= n)%nat -> last (lastn n l) = last l.
Proof.
  intros Hn. unfold lastn.
  destruct (decide (length l <= n)%nat) as [H|H].
  - replace (length l - n)%nat with 0%nat by lia. reflexivity.
  - transitivity (last (take (length l - n) l ++ drop (length l - n) l));
      [|now rewrite take_drop].
    rewrite last_app. destruct (last (drop (length l - n) l)) eqn:E; [reflexivity|].
    apply last_None in E. apply (f_equal length) in E.
    rewrite length_drop in E. simpl in E. lia.
Qed.

Lemma gtb_line_if (x y : Q) (r : LogRecord) :
  (if Num.gtb x y then [r] else []) = line_if (y < x)%Q r.
Proof.
  unfold line_if. destruct (decide (y < x)%Q) as [H|H].
  - apply gtb_spec in H. now rewrite H.
  - destruct (Num.gtb x y) eqn:E; [|reflexivity]. apply gtb_spec in E. tauto.
Qed.

(** ** Snapshots *)

(** X1. The snapshot buffer of a collector holds the last 100 snapshots
    inserted, so never more than 100; an insertion into the full buffer
    drops the oldest snapshot; and no insertion of a snapshot touches the
    request buffer or the aggregate table. *)
Theorem X1_snapshot_window (n : Z) (ops : list Op) (w : World) (Hn : 0 <= n) :
  exists s,
    session n ops w = Ok s
    /\ items (system_metrics (self s)) = lastn 100 (snapshots ops)
    /\ (length (items (system_metrics (self s))) <= 100)%nat
    /\ forall m : SystemMetrics, exists s',
         add_system_metrics m s = Ok (tt, s')
         /\ ((length (items (system_metrics (self s))) < 100)%nat ->
             items (system_metrics (self s')) = items (system_metrics (self s)) ++ [m])
         /\ (forall oldest rest,
               items (system_metrics (self s)) = oldest :: rest ->
               length (items (system_metrics (self s))) = 100%nat ->
               items (system_metrics (self s')) = rest ++ [m])
         /\ requests (self s') = requests (self s)
         /\ endpoint_stats (self s') = endpoint_stats (self s).
Proof.
  destruct (session_facts n ops w Hn) as (s & Hs & _ & _ & Sh).
  exists s. split; [exact Hs|]. split; [apply Sh|].
  split. { rewrite (shaped_items _ _ _ _ Sh), lastn_length. lia. }
  intros m. eexists. split; [apply add_system_metrics_run|].
  cbn [self set_system_metrics system_metrics requests endpoint_stats].
  unfold deque_append. rewrite (shaped_maxlen _ _ _ _ Sh), length_app. cbn [length].
  split; [|split; [|split; reflexivity]].
  - intros Hlt.
    destruct (Z.ltb_spec 100 (Z.of_nat (length (items (system_metrics (self s))) + 1)));
      [lia|reflexivity].
  - intros oldest rest E Hfull. rewrite E in *. cbn [length] in *.
    destruct (Z.ltb_spec 100 (Z.of_nat (S (length rest) + 1))); [reflexivity|lia].
Qed.

Lemma X1_witness :
  0 <= 2
  /\ exists s,
       session 2 two_snapshots clock0 = Ok s
       /\ items (system_metrics (self s)) = [hot_cpu; cool_cpu].
Proof.
  split; [lia|].
  destruct (X1_snapshot_window 2 two_snapshots clock0 ltac:(lia)) as (s & Hs & Hi & _).
  exists s. split; [exact Hs|]. rewrite Hi. reflexivity.
Defined.

(** X2. [current_system] of [get_stats] is the snapshot inserted last,
    whatever else was called since, and is absent exactly when no snapshot
    was ever inserted. *)
Theorem X2_current_system_is_latest (n : Z) (ops : list Op) (w : World) (Hn : 0 <= n) :
  exists s stats s',
    session n ops w = Ok s
    /\ get_stats s = Ok (stats, s')
    /\ current_system stats = last (snapshots ops)
    /\ (current_system stats = None <-> snapshots ops = []).
Proof.
  destruct (session_facts n ops w Hn) as (s & Hs & _ & _ & Sh).
  exists s. do 2 eexists. split; [exact Hs|]. split; [apply get_stats_run|].
  cbn [stats_of current_system].
  rewrite (shaped_items _ _ _ _ Sh), last_lastn by lia.
  split; [reflexivity|apply last_None].
Qed.

Lemma X2_witness :
  0 <= 2
  /\ exists s stats s',
       session 2 two_snapshots clock0 = Ok s
       /\ get_stats s = Ok (stats, s')
       /\ current_system stats = Some cool_cpu.
Proof.
  split; [lia|].
  destruct (X2_current_system_is_latest 2 two_snapshots clock0 ltac:(lia))
    as (s & stats & s' & Hs & Hg & Hc & _).
  exists s, stats, s'. split; [exact Hs|]. split; [exact Hg|].
  rewrite Hc. reflexivity.
Defined.

(** X3. [add_system_metrics] returns in every state. It appends to the log
    a warning for a CPU usage above 80 and then a warning for a memory usage
    above 80, each only when its condition holds, and nothing else. *)
Theorem X3_snapshot_warnings (m : SystemMetrics) (s : State) :
  exists s',
    add_system_metrics m s = Ok (tt, s')
    /\ log (world s')
       = log (world s)
         ++ line_if (80 < cpu_percent m)%Q
              (mkLogRecord WARNING (Msg_high_cpu_usage (cpu_percent m)))
         ++ line_if (80 < memory_percent m)%Q
              (mkLogRecord WARNING (Msg_high_memory_usage (memory_percent m)))
    /\ ((cpu_percent m <= 80)%Q -> (memory_percent m <= 80)%Q ->
        log (world s') = log (world s))
    /\ reads (world s') = reads (world s)
    /\ start_time (self s') = start_time (self s).
Proof.
  eexists. split; [apply add_system_metrics_run|].
  cbn [world self emit log reads set_system_metrics start_time].
  unfold snapshot_lines. rewrite !gtb_line_if.
  split; [reflexivity|]. split; [|split; reflexivity].
  intros H1 H2. unfold line_if.
  rewrite (decide_False (P := (80 < cpu_percent m)%Q)) by now apply Qle_not_lt.
  rewrite (decide_False (P := (80 < memory_percent m)%Q)) by now apply Qle_not_lt.
  now rewrite app_nil_r.
Qed.

(** ** The endpoint summaries *)

Lemma summaries_other (its : list (string * EndpointStats))
    (acc : gmap string EndpointSummary) (key : string) :
  key ∉ its.*1 -> summaries its acc !! key = acc !! key.
Proof.
  revert acc. induction its as [|[k st] its IH]; intros acc H; [reflexivity|].
  cbn [summaries fold_left]. fold (summaries its (<[k := summarize st]> acc)).
  cbn in H. apply not_elem_of_cons in H as [H1 H2].
  rewrite IH by assumption. cbn. now rewrite lookup_insert_ne.
Qed.

Lemma summaries_elem (its : list (string * EndpointStats))
    (acc : gmap string EndpointSummary) (key : string) (st : EndpointStats) :
  NoDup its.*1 -> (key, st) ∈ its ->
  summaries its acc !! key = Some (summarize st).
Proof.
  revert acc. induction its as [|[k st'] its IH]; intros acc N H.
  - inversion H.
  - cbn [summaries fold_left]. fold (summaries its (<[k := summarize st']> acc)).
    cbn in N. apply NoDup_cons in N as [N1 N2].
    apply elem_of_cons in H as [H|H].
    + injection H as -> ->. rewrite summaries_other by assumption.
      cbn. apply lookup_insert_eq.
    + now apply IH.
Qed.

Lemma summaries_lookup (es : gmap string EndpointStats) (key : string) :
  summaries (map_to_list es) ∅ !! key = summarize <$> es !! key.
Proof.
  destruct (es !! key) as [st|] eqn:E; cbn.
  - apply summaries_elem; [apply NoDup_fst_map_to_list|].
    now apply elem_of_map_to_list.
  - rewrite summaries_other; [apply lookup_empty|].
    intros H. apply list_elem_of_fmap in H as ([k st] & -> & H).
    apply elem_of_map_to_list in H. cbn in *. congruence.
Qed.

(** X4. In every state the [endpoints] dictionary of [get_stats] has
    exactly the keys of the aggregate table. The entry of a key carries the
    count as [calls] and the time of the last call; for a positive count its
    average is [round(total_time / count, 3)] and its error rate is
    [round(errors / count * 100, 2)], where the quotients and the product
    are floats, each rounded to binary64; otherwise both are 0. *)
Theorem X4_endpoints_follow_table (s : State) :
  exists stats s',
    get_stats s = Ok (stats, s')
    /\ forall key : string,
         (endpoint_stats (self s) !! key = None -> endpoints stats !! key = None)
         /\ forall st,
              endpoint_stats (self s) !! key = Some st ->
              exists sm,
                endpoints stats !! key = Some sm
                /\ calls sm = count st
                /\ summary_last_called sm = last_called st
                /\ (0 < count st ->
                    avg_response_time sm
                    = Num.py_round
                        (Num.div (total_time st) (Num.of_int (count st))) 3
                    /\ error_rate sm
                       = Num.py_round
                           (Num.mul
                              (Num.div (inject_Z (errors st)) (inject_Z (count st)))
                              100) 2)
                /\ (count st <= 0 ->
                    (avg_response_time sm == 0)%Q /\ (error_rate sm == 0)%Q).
Proof.
  do 2 eexists. split; [apply get_stats_run|].
  cbn [stats_of endpoints]. intros key. rewrite summaries_lookup. split.
  - intros ->. reflexivity.
  - intros st ->. exists (summarize st). split; [reflexivity|].
    unfold summarize. cbn [calls summary_last_called avg_response_time error_rate].
    split; [reflexivity|]. split; [reflexivity|]. split.
    + intros H. apply Z.ltb_lt in H. rewrite H. split; reflexivity.
    + intros H. apply Z.ltb_ge in H. rewrite H. split.
      * apply py_round_zero.
      * apply mul_zero_percent.
Qed.

Lemma with_key_nonempty_len (key : string) (h : list RequestMetrics) :
  with_key key h <> [] -> 0 < len (with_key key h).
Proof. destruct (with_key key h); [congruence|]. intros _. unfold len. simpl. lia. Qed.

(** X5. The per-endpoint figures of [get_stats] are lifetime figures: after
    any sequence of calls a key has an entry exactly when a sample with that
    key was ever inserted, [calls] is the number of those samples, the
    average and the error rate are taken over all of them, and the time of
    the last call is the time stamp of the latest one, whatever the request
    buffer has dropped. The average is [round(total / calls, 3)] for the
    total that the insertions accumulated, in their order; the error rate
    is [round(failures / calls * 100, 2)]; every operation on floats is
    rounded to binary64. After a single call the average is the response
    time of that call, rounded to three decimals. *)
Theorem X5_endpoints_are_lifetime (n : Z) (ops : list Op) (w : World) (Hn : 0 <= n)
    (Hrt : Forall (fun r => ordinary (response_time r)) (inserted ops w)) :
  exists s stats s',
    session n ops w = Ok s
    /\ get_stats s = Ok (stats, s')
    /\ forall key : string,
         (with_key key (inserted ops w) = [] -> endpoints stats !! key = None)
         /\ (with_key key (inserted ops w) <> [] ->
             exists sm,
               endpoints stats !! key = Some sm
               /\ calls sm = len (with_key key (inserted ops w))
               /\ avg_response_time sm
                  = Num.py_round
                      (Num.div
                         (accumulated
                            (List.map response_time (with_key key (inserted ops w))))
                         (Num.of_int (len (with_key key (inserted ops w))))) 3
               /\ error_rate sm
                  = Num.py_round
                      (Num.mul
                         (Num.div
                            (inject_Z (len (List.filter is_error
                                              (with_key key (inserted ops w)))))
                            (inject_Z (len (with_key key (inserted ops w)))))
                         100) 2
               /\ summary_last_called sm
                  = timestamp <$> last (with_key key (inserted ops w))
               /\ forall r, with_key key (inserted ops w) = [r] ->
                    avg_response_time sm = Num.py_round (response_time r) 3).
Proof.
  destruct (session_facts n ops w Hn) as (s & Hs & _ & T & _).
  exists s. do 2 eexists. split; [exact Hs|]. split; [apply get_stats_run|].
  cbn [stats_of endpoints]. intros key.
  rewrite summaries_lookup, (tracks_stats _ _ _ T). unfold aggregate.
  assert (Hord : forall r, r ∈ with_key key (inserted ops w) ->
                   ordinary (response_time r)).
  { intros r In. unfold with_key in In.
    apply list_elem_of_In, List.filter_In in In as [In _].
    rewrite Forall_forall in Hrt. apply (Hrt r). now apply list_elem_of_In. }
  set (l := with_key key (inserted ops w)) in *. split.
  - intros ->. reflexivity.
  - intros Hne. pose proof (with_key_nonempty_len key _ Hne) as Hpos. fold l in Hpos.
    destruct l as [|r l'] eqn:El; [congruence|]. rewrite <- El in *. clear El r l'.
    eexists. split; [reflexivity|].
    unfold summarize. cbn [calls summary_last_called avg_response_time error_rate
                             count total_time errors last_called].
    apply Z.ltb_lt in Hpos. rewrite Hpos.
    do 4 (split; [reflexivity|]).
    intros r E. rewrite E in *. destruct (Hord r (list_elem_of_here _ _)) as [Hr _].
    cbn [List.map]. change (len [r]) with 1.
    apply py_round_proper; [|reflexivity].
    unfold accumulated. cbn [fold_left].
    pose proof (add_zero_l _ Hr) as A.
    rewrite (div_proper _ _ A _ _ (Qeq_refl _)). now apply div_one.
Qed.

(** Requests of 0.1 s and 0.3 s on one endpoint, the first of them dropped
    from a buffer of two: the entry counts both, and their average is 0.2. *)
Lemma X5_witness :
  0 <= 2
  /\ Forall (fun r => ordinary (response_time r)) (inserted three_inserts clock0)
  /\ exists s stats s' sm,
       session 2 three_inserts clock0 = Ok s
       /\ get_stats s = Ok (stats, s')
       /\ total_requests stats = 2
       /\ endpoints stats !! "GET /a" = Some sm
       /\ calls sm = 2
       /\ (avg_response_time sm == Num.b64 (2 # 10))%Q
       /\ (error_rate sm == 50)%Q.
Proof.
  assert (Hrt : Forall (fun r => ordinary (response_time r))
                  (inserted three_inserts clock0)).
  { all_ordinary. }
  split; [lia|]. split; [exact Hrt|].
  destruct (X5_endpoints_are_lifetime 2 three_inserts clock0 ltac:(lia) Hrt)
    as (s & stats & s' & Hs & Hg & Hk).
  destruct (Hk "GET /a") as [_ Hsome].
  destruct Hsome as (sm & Hl & Hc & Ha & He & _ & _); [discriminate|].
  exists s, stats, s', sm. split; [exact Hs|]. split; [exact Hg|].
  split; [|split; [exact Hl|split; [rewrite Hc; reflexivity|]]].
  - vm_compute in Hs. injection Hs as <-.
    rewrite get_stats_run in Hg. injection Hg as <- _. reflexivity.
  - rewrite Ha, He. split; vm_compute; reflexivity.
Defined.

(** X6. In every state the [error_rate_percent] of [get_stats] lies
    between 0 and 100. *)
Theorem X6_error_rate_is_a_percentage (s : State) :
  exists stats s',
    get_stats s = Ok (stats, s')
    /\ (0 <= error_rate_percent stats)%Q
    /\ (error_rate_percent stats <= 100)%Q.
Proof.
  do 2 eexists. split; [apply get_stats_run|].
  cbn [stats_of error_rate_percent]. apply py_round_percent.
  - unfold error_rate_of. destruct (0 <? len (items (requests (self s)))) eqn:E;
      [|discriminate].
    apply percent_between; [apply filter_error_le|now apply Z.ltb_lt].
  - unfold error_rate_of. destruct (0 <? len (items (requests (self s)))) eqn:E;
      [|discriminate].
    apply percent_between; [apply filter_error_le|now apply Z.ltb_lt].
Qed.

(** X7. After any sequence of calls every entry of [endpoints] counts at
    least one call and has an error rate between 0 and 100. *)
Theorem X7_endpoint_rates_are_percentages (n : Z) (ops : list Op) (w : World)
    (Hn : 0 <= n) :
  exists s stats s',
    session n ops w = Ok s
    /\ get_stats s = Ok (stats, s')
    /\ forall key sm,
         endpoints stats !! key = Some sm ->
         1 <= calls sm
         /\ (0 <= error_rate sm)%Q
         /\ (error_rate sm <= 100)%Q.
Proof.
  destruct (session_facts n ops w Hn) as (s & Hs & _ & T & _).
  exists s. do 2 eexists. split; [exact Hs|]. split; [apply get_stats_run|].
  cbn [stats_of endpoints]. intros key sm.
  rewrite summaries_lookup, (tracks_stats _ _ _ T). unfold aggregate.
  set (l := with_key key (inserted ops w)).
  destruct l as [|r l'] eqn:El; [discriminate|]. rewrite <- El. 
  assert (Hpos : 0 < len l) by (rewrite El; unfold len; simpl; lia).
  clear El r l'. cbn. intros [= <-].
  unfold summarize. cbn [calls error_rate count errors].
  split; [lia|]. apply Z.ltb_lt in Hpos. rewrite Hpos. apply Z.ltb_lt in Hpos.
  apply py_round_percent; apply percent_between; try assumption; apply filter_error_le.
Qed.

Lemma X7_witness :
  0 <= 2
  /\ exists s stats s',
       session 2 three_inserts clock0 = Ok s
       /\ get_stats s = Ok (stats, s')
       /\ forall sm, endpoints stats !! "GET /b" = Some sm ->
            (error_rate sm <= 100)%Q.
Proof.
  split; [lia|].
  destruct (X7_endpoint_rates_are_percentages 2 three_inserts clock0 ltac:(lia))
    as (s & stats & s' & Hs & Hg & Hk).
  exists s, stats, s'. split; [exact Hs|]. split; [exact Hg|].
  intros sm Hsm. apply (Hk _ _ Hsm).
Defined.

(** ** Health *)

Lemma rule_issues_shape (stats : Stats) :
  (length (rule_issues stats) <= 4)%nat
  /\ (current_system stats = None -> (length (rule_issues stats) <= 2)%nat)
  /\ ((3 <= length (rule_issues stats))%nat ->
      exists sys, current_system stats = Some sys
                  /\ ((90 < cpu_percent sys)%Q \/ (90 < memory_percent sys)%Q)).
Proof.
  unfold rule_issues.
  destruct (Num.gtb (error_rate_percent stats) 10),
    (Num.gtb (avg_response_time_ms stats) 5000),
    (current_system stats) as [sys|];
    try (destruct (Num.gtb (cpu_percent sys) 90) eqn:Ec;
         destruct (Num.gtb (memory_percent sys) 90) eqn:Em);
    cbn; (split; [lia|]); (split; [try discriminate; intros; lia|]);
    intros H; try lia; exists sys; (split; [reflexivity|]);
    try (left; now apply gtb_spec); right; now apply gtb_spec.
Qed.

(** X8. [get_health_status] reports at most four issues and one of the three
    statuses. It reports "unhealthy" only when a snapshot is present whose
    CPU or memory usage is above 90: without a snapshot there are at most
    two issues and the status is "healthy" or "degraded". *)
Theorem X8_unhealthy_needs_a_snapshot (s : State) :
  exists h s',
    get_health_status s = Ok (h, s')
    /\ (length (issues h) <= 4)%nat
    /\ (status h = "healthy" \/ status h = "degraded" \/ status h = "unhealthy")
    /\ (items (system_metrics (self s)) = [] ->
        (length (issues h) <= 2)%nat /\ status h <> "unhealthy")
    /\ (status h = "unhealthy" ->
        exists sys,
          last (items (system_metrics (self s))) = Some sys
          /\ ((90 < cpu_percent sys)%Q \/ (90 < memory_percent sys)%Q)).
Proof.
  do 2 eexists. split; [apply get_health_status_run|].
  set (stats := stats_of _ _). cbn [issues status health_of].
  destruct (rule_issues_shape stats) as (H4 & H2 & H3).
  assert (Cur : current_system stats = last (items (system_metrics (self s))))
    by reflexivity.
  split; [exact H4|]. split; [|split].
  - destruct (length (rule_issues stats)) as [|[|[|k]]]; cbn; auto.
  - intros E. rewrite Cur, E in H2. specialize (H2 eq_refl). split; [exact H2|].
    destruct (length (rule_issues stats)) as [|[|[|k]]]; cbn; try discriminate; lia.
  - intros U. rewrite <- Cur. apply H3.
    destruct (length (rule_issues stats)) as [|[|[|k]]]; cbn in U; try discriminate; lia.
Qed.

(** X9. After any sequence of calls the number of recent requests reported
    by [get_stats] is at most [total_requests], which is at most the
    capacity; the two are equal when every buffered sample is stamped less
    than five minutes before the clock reading of the call (or after it).
    [get_health_status] reports the same [total_requests]. *)
Theorem X9_recent_within_total (n : Z) (ops : list Op) (w : World) (Hn : 0 <= n) :
  exists s stats s1 h s2,
    session n ops w = Ok s
    /\ get_stats s = Ok (stats, s1)
    /\ get_health_status s = Ok (h, s2)
    /\ 0 <= recent_requests_5min stats <= total_requests stats
    /\ total_requests stats <= n
    /\ health_total_requests h = total_requests stats
    /\ (Forall (fun r => stats_timestamp stats - timestamp r < five_minutes)
          (items (requests (self s))) ->
        recent_requests_5min stats = total_requests stats).
Proof.
  destruct (session_facts n ops w Hn) as (s & Hs & _ & T & _).
  exists s. do 4 eexists. split; [exact Hs|]. split; [apply get_stats_run|].
  split; [apply get_health_status_run|].
  cbn [stats_of recent_requests_5min total_requests health_of
         health_total_requests stats_timestamp].
  pose proof (tracks_length n Hn _ _ T) as L.
  set (now := wall (world s) (reads (world s))).
  pose proof (List.filter_length_le (fun r => now - timestamp r <? five_minutes)
                (items (requests (self s)))) as F.
  unfold len in *. split; [lia|]. split; [lia|]. split; [reflexivity|].
  intros A. rewrite filter_all; [reflexivity|].
  eapply Forall_impl; [exact A|]. intros r Hr. apply Z.ltb_lt. exact Hr.
Qed.

Lemma X9_witness :
  0 <= 2
  /\ exists s stats s1,
       session 2 three_inserts clock0 = Ok s
       /\ get_stats s = Ok (stats, s1)
       /\ 0 <= recent_requests_5min stats <= total_requests stats
       /\ total_requests stats <= 2.
Proof.
  split; [lia|].
  destruct (X9_recent_within_total 2 three_inserts clock0 ltac:(lia))
    as (s & stats & s1 & _ & _ & Hs & Hg & _ & Hb & Ht & _).
  exists s, stats, s1. split; [exact Hs|]. split; [exact Hg|].
  split; [exact Hb|exact Ht].
Defined.

(** ** Reporting a request *)

(** X10. [log_request] stamps the sample with the clock reading it makes
    and hands it to [add_request]: when the buffer has room for at least one
    sample, the newest buffered sample afterwards is the one reported, with
    every optional field as given; the count of its key has grown by one and
    the key's time of last call is the stamp. Snapshots are untouched. *)
Theorem X10_log_request_stores_the_sample (e m : string) (sc : Z) (rt : Q)
    (ua ip err : option string) (s : State)
    (Hroom : 1 <= maxlen (requests (self s))) :
  exists s',
    log_request e m sc rt ua ip err s = Ok (tt, s')
    /\ last (items (requests (self s')))
       = Some (mkRequestMetrics e m sc rt (wall (world s) (reads (world s))) ua ip err)
    /\ call_count (self s') (endpoint_key m e)
       = call_count (self s) (endpoint_key m e) + 1
    /\ last_called (stats_at (self s') (endpoint_key m e))
       = Some (wall (world s) (reads (world s)))
    /\ system_metrics (self s') = system_metrics (self s)
    /\ reads (world s') = S (reads (world s)).
Proof.
  eexists. split; [apply log_request_run|].
  cbn [self world after_add_request requests system_metrics emit tick reads].
  split; [|split; [|split; [|split; reflexivity]]].
  - unfold deque_append. set (x := mkRequestMetrics _ _ _ _ _ _ _ _).
    destruct (maxlen (requests (self s)) <? Z.of_nat (length (items (requests (self s)) ++ [x])))
      eqn:E; cbn [items].
    + destruct (items (requests (self s))) as [|y l] eqn:El.
      * apply Z.ltb_lt in E. cbn in E. lia.
      * cbn [app tail]. apply last_snoc.
    + apply last_snoc.
  - unfold call_count, stats_at. cbn [after_add_request endpoint_stats key_of
                                        method endpoint].
    now rewrite lookup_insert_eq.
  - unfold stats_at. cbn [after_add_request endpoint_stats key_of method endpoint].
    now rewrite lookup_insert_eq.
Qed.

Lemma X10_witness :
  1 <= 1000
  /\ exists s',
       log_request "/a" "GET" 200 (1 # 10) None None None
         (mkState (fresh 1000 0) clock0) = Ok (tt, s')
       /\ call_count (self s') (endpoint_key "GET" "/a") = 1.
Proof.
  split; [lia|].
  destruct (X10_log_request_stores_the_sample "/a" "GET" 200 (1 # 10) None None None
              (mkState (fresh 1000 0) clock0) ltac:(cbn; lia))
    as (s' & Hs & _ & Hc & _).
  exists s'. split; [exact Hs|]. rewrite Hc. reflexivity.
Defined.

(** ** Construction *)

(** X11. For an [n] that fits a machine integer, from -2^63 to 2^63 - 1,
    [MetricsCollector(n)] raises [ValueError] when [n] is negative, and
    otherwise reads the clock once, logs nothing, and returns a collector
    with two empty buffers bounded by [n] and by 100, an empty aggregate
    table and the reading as start time. It raises [ValueError] for no [n]
    that is not negative. *)
Theorem X11_construction (n : Z) (w : World) :
  (- 2 ^ 63 <= n < 0 -> __init__ n w = Raise ValueError)
  /\ (__init__ n w = Raise ValueError -> n < 0)
  /\ (0 <= n < 2 ^ 63 ->
      exists c w',
        __init__ n w = Ok (c, w')
        /\ max_requests c = n
        /\ requests c = mkDeque [] n
        /\ system_metrics c = mkDeque [] 100
        /\ endpoint_stats c = ∅
        /\ start_time c = wall w (reads w)
        /\ log w' = log w
        /\ wall w' = wall w
        /\ reads w' = S (reads w)).
Proof.
  split; [intros [_ Hn]; now apply init_negative|]. split.
  - intros H. destruct (Z.lt_ge_cases n 0) as [L|L]; [exact L|].
    rewrite init_fresh in H by assumption. discriminate.
  - intros [Hn _]. do 2 eexists. split; [now apply init_fresh|]. repeat split.
Qed.

(** ** The collector is a function of what was inserted *)

(** X12. Two sequences of calls on collectors of the same capacity, built
    at the same time, that insert the same samples in the same order and the
    same snapshots in the same order end in the same collector: queries, and
    the order of requests relative to snapshots, leave no trace. *)
Theorem X12_history_determines_collector (n : Z) (ops1 ops2 : list Op)
    (w1 w2 : World) (Hn : 0 <= n)
    (Hstart : wall w1 (reads w1) = wall w2 (reads w2))
    (Hsamples : inserted ops1 w1 = inserted ops2 w2)
    (Hsnapshots : snapshots ops1 = snapshots ops2) :
  exists s1 s2,
    session n ops1 w1 = Ok s1
    /\ session n ops2 w2 = Ok s2
    /\ self s1 = self s2.
Proof.
  destruct (session_facts n ops1 w1 Hn) as (s1 & H1 & _ & T1 & S1).
  destruct (session_facts n ops2 w2 Hn) as (s2 & H2 & _ & T2 & S2).
  exists s1, s2. split; [exact H1|]. split; [exact H2|].
  rewrite Hstart, Hsnapshots in S1. rewrite Hsamples in T1.
  exact (collector_eq _ _ _ _ _ _ T1 S1 T2 S2).
Qed.

Lemma X12_witness :
  0 <= 1
  /\ exists s1 s2,
       session 1 requests_then_snapshot clock0 = Ok s1
       /\ session 1 snapshot_then_requests clock0 = Ok s2
       /\ self s1 = self s2.
Proof.
  split; [lia|].
  apply (X12_history_determines_collector 1 requests_then_snapshot
           snapshot_then_requests clock0 clock0); [lia|reflexivity..].
Defined.

(** X13. In every state, inserting a request and then a snapshot leaves
    the same collector and the same clock as inserting the snapshot and then
    the request. *)
Theorem X13_insertions_commute (m : RequestMetrics) (x : SystemMetrics) (s : State) :
  exists s1 s2,
    (add_request m;; add_system_metrics x) s = Ok (tt, s1)
    /\ (add_system_metrics x;; add_request m) s = Ok (tt, s2)
    /\ self s1 = self s2
    /\ reads (world s1) = reads (world s2)
    /\ wall (world s1) = wall (world s2).
Proof.
  do 2 eexists. unfold bind.
  rewrite add_request_run, add_system_metrics_run, add_system_metrics_run,
    add_request_run.
  split; [reflexivity|]. split; [reflexivity|]. repeat split.
Qed.

(** ** Capacity zero *)

(** X14. A collector built with capacity 0 keeps no sample: after any
    sequence of calls [get_stats] reports no request, an error rate and an
    average response time of 0, and [get_health_status] raises no issue
    about requests, while the per-endpoint counts still grow with every
    insertion. *)
Theorem X14_zero_capacity (ops : list Op) (w : World) :
  exists s stats s1 h s2,
    session 0 ops w = Ok s
    /\ get_stats s = Ok (stats, s1)
    /\ get_health_status s = Ok (h, s2)
    /\ items (requests (self s)) = []
    /\ total_requests stats = 0
    /\ recent_requests_5min stats = 0
    /\ (error_rate_percent stats == 0)%Q
    /\ (avg_response_time_ms stats == 0)%Q
    /\ Forall (fun i => ~ about_requests i) (issues h)
    /\ forall key, call_count (self s) key = len (with_key key (inserted ops w)).
Proof.
  destruct (session_facts 0 ops w ltac:(lia)) as (s & Hs & _ & T & _).
  exists s. do 4 eexists. split; [exact Hs|]. split; [apply get_stats_run|].
  split; [apply get_health_status_run|].
  assert (Rq : items (requests (self s)) = []).
  { rewrite (tracks_items _ _ _ T). unfold lastn. cbn.
    rewrite Nat.sub_0_r. apply drop_all. }
  set (stats := stats_of _ _).
  assert (E0 : (error_rate_percent stats == 0)%Q).
  { unfold stats. cbn [stats_of error_rate_percent]. rewrite Rq.
    apply mul_zero_percent. }
  assert (A0 : (avg_response_time_ms stats == 0)%Q).
  { unfold stats. cbn [stats_of avg_response_time_ms]. rewrite Rq.
    unfold avg_response_time_of. cbn [List.map].
    rewrite mul_zero. apply py_round_zero. }
  split; [exact Rq|].
  split; [unfold stats; cbn [stats_of total_requests]; now rewrite Rq|].
  split; [unfold stats; cbn [stats_of recent_requests_5min]; now rewrite Rq|].
  split; [exact E0|]. split; [exact A0|]. split.
  - cbn [issues health_of]. unfold rule_issues. rewrite !gtb_issue_if. unfold issue_if.
    rewrite (decide_False (P := (10 < _)%Q)) by (rewrite E0; discriminate).
    rewrite (decide_False (P := (5000 < _)%Q)) by (rewrite A0; discriminate).
    cbn [app]. destruct (current_system stats) as [sys|]; [|constructor].
    destruct (Num.gtb (cpu_percent sys) 90), (Num.gtb (memory_percent sys) 90);
      repeat constructor; cbn; tauto.
  - intros key. apply (tracks_stats_at 0 _ _ key T).
Qed.

(** ** The monitor *)

Lemma on_collector_exec (o : Op) (p : Process) :
  on_collector (exec o) p
  = Ok (tt, mkProcess
              (exec_self o (mkWorld [] (clock p) (ticks p)) (collector p))
              (lines p ++ List.map Collector_line
                           (exec_lines o (mkWorld [] (clock p) (ticks p))))
              (clock p) (clock_reads o + ticks p) (monitoring p)).
Proof. unfold on_collector. rewrite exec_run. reflexivity. Qed.

(** Running a call on an empty log and appending its lines, as
    [on_collector] does, is running it on the log. *)
Lemma exec_appends (o : Op) (c : MetricsCollector) (l : list LogRecord)
    (wl : nat -> datetime) (k : nat) :
  exists c' ls k',
    exec o (mkState c (mkWorld [] wl k)) = Ok (tt, mkState c' (mkWorld ls wl k'))
    /\ exec o (mkState c (mkWorld l wl k)) = Ok (tt, mkState c' (mkWorld (l ++ ls) wl k')).
Proof.
  do 3 eexists. rewrite !exec_run. split; [reflexivity|].
  cbn [self world]. unfold exec_world. cbn [log wall reads].
  destruct o; reflexivity.
Qed.

Lemma on_collector_now (p : Process) :
  on_collector (lift datetime_now) p
  = Ok (clock p (ticks p),
        mkProcess (collector p) (lines p) (clock p) (S (ticks p)) (monitoring p)).
Proof. unfold on_collector, lift, datetime_now. cbn. now rewrite app_nil_r. Qed.

Lemma on_collector_add_system_metrics (m : SystemMetrics) (p : Process) :
  on_collector (add_system_metrics m) p
  = Ok (tt, mkProcess
              (set_system_metrics (deque_append (system_metrics (collector p)) m)
                 (collector p))
              (lines p ++ List.map Collector_line (snapshot_lines m))
              (clock p) (ticks p) (monitoring p)).
Proof. unfold on_collector. rewrite add_system_metrics_run. reflexivity. Qed.

Lemma stop_monitoring_run (p : Process) :
  stop_monitoring p
  = Ok (tt, mkProcess (collector p)
              (lines p ++ [Monitor_line INFO Msg_monitoring_stopped])
              (clock p) (ticks p) false).
Proof. reflexivity. Qed.

Lemma no_monitor_error_among_collector_lines (l : list LogRecord) :
  List.filter is_monitor_error (List.map Collector_line l) = [].
Proof. induction l as [|r l IH]; [reflexivity|exact IH]. Qed.

Lemma asyncio_sleep_facts (acts : list Activity) :
  forall p, exists p',
    asyncio_sleep acts p = Ok (tt, p')
    /\ clock p' = clock p
    /\ monitoring p' = (if existsb stops_activity acts then false else monitoring p)
    /\ List.filter is_monitor_error (lines p') = List.filter is_monitor_error (lines p)
    /\ (forallb stops_activity acts = true ->
        collector p' = collector p /\ ticks p' = ticks p).
Proof.
  induction acts as [|a acts IH]; intros p.
  - exists p. repeat split.
  - cbn [asyncio_sleep]. unfold bind. destruct a as [o|]; cbn [activity].
    + rewrite on_collector_exec.
      destruct (IH (mkProcess
                      (exec_self o (mkWorld [] (clock p) (ticks p)) (collector p))
                      (lines p ++ List.map Collector_line
                                   (exec_lines o (mkWorld [] (clock p) (ticks p))))
                      (clock p) (clock_reads o + ticks p) (monitoring p)))
        as (p' & R & Hc & Hm & Hl & _).
      exists p'. split; [exact R|]. cbn in *. split; [exact Hc|]. split; [exact Hm|].
      split; [|discriminate].
      rewrite Hl, List.filter_app, no_monitor_error_among_collector_lines.
      apply app_nil_r.
    + rewrite stop_monitoring_run.
      destruct (IH (mkProcess (collector p)
                      (lines p ++ [Monitor_line INFO Msg_monitoring_stopped])
                      (clock p) (ticks p) false))
        as (p' & R & Hc & Hm & Hl & Hq).
      exists p'. split; [exact R|]. cbn in *. split; [exact Hc|]. split.
      * rewrite Hm. now destruct (existsb stops_activity acts).
      * split; [|exact Hq].
        rewrite Hl, List.filter_app. cbn. apply app_nil_r.
Qed.








Lemma sampled_snapshots_cons (wl : nat -> datetime) (k : nat) (t : Turn)
    (turns : list Turn) :
  sampled_snapshots wl k (t :: turns)
  = sampled_snapshots wl k [t]
    ++ sampled_snapshots wl (length (sampled_snapshots wl k [t]) + k) turns.
Proof. cbn. destruct (supplied t); reflexivity. Qed.

Section QuietMonitor.

Variables (n : Z) (t0 : datetime).

Lemma monitor_iteration_quiet (t : Turn) (p : Process) (sn : list SystemMetrics) :
  quiet t = true ->
  Shaped n t0 sn (collector p) ->
  exists p',
    monitor_iteration t p = Ok (tt, p')
    /\ clock p' = clock p
    /\ monitoring p' = (if stops t then false else monitoring p)
    /\ Shaped n t0 (sn ++ sampled_snapshots (clock p) (ticks p) [t]) (collector p')
    /\ requests (collector p') = requests (collector p)
    /\ endpoint_stats (collector p') = endpoint_stats (collector p)
    /\ ticks p' = (length (sampled_snapshots (clock p) (ticks p) [t]) + ticks p)%nat.
Proof.
  intros Q Sh. unfold monitor_iteration, quiet, stops in *.
  cbn [sampled_snapshots].
  destruct (supplied t) as [cpu mem used available disk|text]; unfold bind.
  - rewrite on_collector_now, on_collector_add_system_metrics.
    cbn [collector lines clock ticks monitoring].
    match goal with |- context [asyncio_sleep _ ?q] =>
      destruct (asyncio_sleep_facts (meanwhile t) q) as (p' & R & Hc & Hm & _ & Hq)
    end.
    destruct (Hq Q) as [Hcol Htk]. cbn in Hc, Hm, Hcol, Htk.
    exists p'. split; [exact R|]. split; [exact Hc|]. split; [exact Hm|].
    rewrite Hcol, Htk. cbn [length]. split; [|repeat split].
    apply (shaped_exec n t0 sn (Add_system_metrics _) (mkWorld [] (clock p) (ticks p))).
    exact Sh.
  - unfold monitor_emit at 1.
    match goal with |- context [asyncio_sleep _ ?q] =>
      destruct (asyncio_sleep_facts (meanwhile t) q) as (p' & R & Hc & Hm & _ & Hq)
    end.
    destruct (Hq Q) as [Hcol Htk]. cbn in Hc, Hm, Hcol, Htk.
    exists p'. split; [exact R|]. split; [exact Hc|]. split; [exact Hm|].
    rewrite Hcol, Htk, app_nil_r. cbn [length]. repeat split; apply Sh.
Qed.

Lemma monitor_loop_quiet (schedule : list Turn) :
  forallb quiet schedule = true ->
  forall (p : Process) (sn : list SystemMetrics),
    Shaped n t0 sn (collector p) ->
    exists status p',
      monitor_loop schedule p = Ok (status, p')
      /\ Shaped n t0
           (sn ++ sampled_snapshots (clock p) (ticks p) (executed_from p schedule))
           (collector p')
      /\ requests (collector p') = requests (collector p)
      /\ endpoint_stats (collector p') = endpoint_stats (collector p)
      /\ ticks p'
         = (length (sampled_snapshots (clock p) (ticks p) (executed_from p schedule))
            + ticks p)%nat.
Proof.
  induction schedule as [|t schedule IH]; intros Q p sn Sh.
  - cbn [monitor_loop]. unfold bind, get_monitoring, ret, executed_from.
    do 2 eexists. split; [reflexivity|].
    destruct (monitoring p); cbn; rewrite app_nil_r; repeat split; apply Sh.
  - cbn [forallb] in Q. apply andb_true_iff in Q as [Qt Q].
    cbn [monitor_loop]. unfold bind at 1. unfold get_monitoring at 1.
    unfold executed_from. destruct (monitoring p) eqn:On.
    + unfold bind.
      destruct (monitor_iteration_quiet t p sn Qt Sh)
        as (p1 & R1 & Hc1 & Hm1 & Sh1 & Hr1 & He1 & Ht1).
      rewrite R1. destruct (IH Q p1 _ Sh1) as (status & p' & R & Sh' & Hr & He & Ht).
      exists status, p'. split; [exact R|].
      cbn [executed]. rewrite sampled_snapshots_cons.
      unfold executed_from in Sh', Ht. rewrite Hm1, On, Hc1, Ht1 in Sh', Ht.
      rewrite length_app, app_assoc.
      destruct (stops t); cbn [sampled_snapshots length] in *;
        rewrite ?app_nil_r in *; (split; [exact Sh'|]);
        (split; [congruence|]); (split; [congruence|]); lia.
    + do 2 eexists. split; [reflexivity|]. cbn. rewrite app_nil_r.
      repeat split; apply Sh.
Qed.

End QuietMonitor.

(** X17. When no other task calls the collector during the sleeps, a
    started monitor inserts one snapshot for each successful sample of the
    turns it goes through, up to and including the turn in which a stop is
    requested, and none for a failed sample. The snapshots carry the
    readings, the used and available memory divided by 1024 twice, and
    successive clock readings as time stamps. The request buffer and the
    aggregate table are left alone. A stop requested before the start is
    forgotten: the first turn is always gone through. *)
Theorem X17_monitor_snapshots (interval : Z) (schedule : list Turn) (p : Process)
    (n : Z) (t0 : datetime) (sn : list SystemMetrics)
    (Hquiet : forallb quiet schedule = true)
    (Hshape : Shaped n t0 sn (collector p)) :
  exists status p',
    start_monitoring interval schedule p = Ok (status, p')
    /\ items (system_metrics (collector p'))
       = lastn 100 (sn ++ sampled_snapshots (clock p) (ticks p) (executed schedule))
    /\ requests (collector p') = requests (collector p)
    /\ endpoint_stats (collector p') = endpoint_stats (collector p)
    /\ start_time (collector p') = start_time (collector p)
    /\ ticks p'
       = (length (sampled_snapshots (clock p) (ticks p) (executed schedule))
          + ticks p)%nat.
Proof.
  unfold start_monitoring, bind, set_monitoring, monitor_emit.
  cbn [collector lines clock ticks monitoring].
  match goal with |- context [monitor_loop _ ?q] =>
    destruct (monitor_loop_quiet n t0 schedule Hquiet q sn Hshape)
      as (status & p' & R & Sh & Hr & He & Ht)
  end.
  unfold executed_from in *. cbn in Sh, Hr, He, Ht.
  exists status, p'. split; [exact R|]. split; [apply Sh|].
  split; [exact Hr|]. split; [exact He|]. split; [|exact Ht].
  rewrite (shaped_start_time _ _ _ _ Sh). symmetry. apply Hshape.
Qed.

Lemma X17_witness :
  forallb quiet demo_schedule = true
  /\ Shaped 1000 0 [] (collector demo_process)
  /\ exists status p',
       start_monitoring 30 demo_schedule demo_process = Ok (status, p')
       /\ List.map sys_timestamp (items (system_metrics (collector p')))
          = [1000000; 2000000].
Proof.
  split; [reflexivity|]. split; [apply fresh_shaped|].
  destruct (X17_monitor_snapshots 30 demo_schedule demo_process 1000 0 []
              eq_refl (fresh_shaped 1000 0))
    as (status & p' & R & Hi & _).
  exists status, p'. split; [exact R|]. rewrite Hi. reflexivity.
Defined.

(** ** The middleware *)

Lemma monitoring_middleware_run (request : Request) (start_time : Q)
    (meanwhile : list Op) (handled : Handled) (now : Q) (s : State) :
  let s1 := run_state meanwhile s in
  let err := match handled with Responded _ => None | Threw text => Some text end in
  let metrics :=
    mkRequestMetrics (url_path request) (request_method request)
      (recorded_status handled) (now - start_time)%Q
      (wall (world s1) (reads (world s1)))
      (header_user_agent request) (client_host request) err in
  monitoring_middleware request start_time meanwhile handled now s
  = Ok (passed_on handled,
        mkState (after_add_request metrics (self s1))
          (emit (request_line metrics
                 :: classification_lines (url_path request) (request_method request)
                      (recorded_status handled) (now - start_time)%Q err)
             (tick (world s1)))).
Proof.
  intros s1 err metrics. unfold monitoring_middleware, bind.
  rewrite run_run. fold s1.
  destruct handled as [response|text]; unfold log_request_metrics;
    rewrite log_request_run; reflexivity.
Qed.

Lemma stats_at_after_same (m : RequestMetrics) (c : MetricsCollector) :
  stats_at (after_add_request m c) (key_of m) = bump m (stats_at c (key_of m)).
Proof.
  unfold stats_at at 1. cbn [after_add_request endpoint_stats].
  now rewrite lookup_insert_eq.
Qed.

Lemma stats_at_after_other (m : RequestMetrics) (c : MetricsCollector) (key : string) :
  key <> key_of m -> stats_at (after_add_request m c) key = stats_at c key.
Proof.
  intros Hk. unfold stats_at. cbn [after_add_request endpoint_stats].
  now rewrite lookup_insert_ne by congruence.
Qed.

(** X18. The middleware ends as the handler did: it returns the handler's
    response unchanged, or raises the handler's exception again. In both
    cases it records the request exactly once, after whatever other tasks
    did in the meantime: the count of the key "METHOD path" grows by one, no
    other key changes, the snapshots are untouched, and [errors] of the key
    grows by one exactly when the recorded status, the response's or 500
    for an exception, is 400 or more. *)
Theorem X18_middleware_records_once (request : Request) (start_time : Q)
    (meanwhile : list Op) (handled : Handled) (now : Q) (s : State) :
  exists s1 s',
    run meanwhile s = Ok (tt, s1)
    /\ monitoring_middleware request start_time meanwhile handled now s
       = Ok (passed_on handled, s')
    /\ call_count (self s') (endpoint_key (request_method request) (url_path request))
       = call_count (self s1)
           (endpoint_key (request_method request) (url_path request)) + 1
    /\ (forall key,
          key <> endpoint_key (request_method request) (url_path request) ->
          stats_at (self s') key = stats_at (self s1) key)
    /\ (error_count (self s') (endpoint_key (request_method request) (url_path request))
        = error_count (self s1)
            (endpoint_key (request_method request) (url_path request))
          + (if 400 <=? recorded_status handled then 1 else 0))
    /\ system_metrics (self s') = system_metrics (self s1)
    /\ reads (world s') = S (reads (world s1)).
Proof.
  do 2 eexists. split; [apply run_run|]. split; [apply monitoring_middleware_run|].
  cbn [self world emit tick reads].
  set (s1 := run_state meanwhile s).
  set (x := mkRequestMetrics _ _ _ _ _ _ _ _).
  change (endpoint_key (request_method request) (url_path request)) with (key_of x).
  unfold call_count, error_count. rewrite stats_at_after_same.
  cbn [bump count errors]. unfold is_error. cbn [x status_code].
  split; [reflexivity|]. split; [|split; [|split; reflexivity]].
  - intros key Hk. now apply stats_at_after_other.
  - destruct (400 <=? recorded_status handled); lia.
Qed.

(** X19. When the handler raises, the middleware records the request with
    status 500 and the text of the exception as error message, logs the
    request line and then the server error line with that text, counts an
    error for the key, and raises the exception again. The recorded
    response time is the difference of the two clock readings. *)
Theorem X19_middleware_handler_exception (request : Request) (start_time : Q)
    (meanwhile : list Op) (text : string) (now : Q) (s : State) :
  exists s1 s',
    run meanwhile s = Ok (tt, s1)
    /\ monitoring_middleware request start_time meanwhile (Threw text) now s
       = Ok (Reraised text, s')
    /\ log (world s')
       = log (world s1)
         ++ [mkLogRecord INFO
               (Msg_request (request_method request) (url_path request) 500
                  (now - start_time)%Q);
             mkLogRecord ERROR
               (Msg_server_error (request_method request) (url_path request) 500
                  (Some text))]
    /\ error_count (self s') (endpoint_key (request_method request) (url_path request))
       = error_count (self s1)
           (endpoint_key (request_method request) (url_path request)) + 1
    /\ (1 <= maxlen (requests (self s1)) ->
        last (items (requests (self s')))
        = Some (mkRequestMetrics (url_path request) (request_method request) 500
                  (now - start_time)%Q (wall (world s1) (reads (world s1)))
                  (header_user_agent request) (client_host request) (Some text))).
Proof.
  do 2 eexists. split; [apply run_run|]. split; [apply monitoring_middleware_run|].
  cbn [self world after_add_request emit tick log requests recorded_status].
  split; [reflexivity|]. split.
  - set (x := mkRequestMetrics _ _ _ _ _ _ _ _).
    change (endpoint_key (request_method request) (url_path request)) with (key_of x).
    unfold error_count. rewrite stats_at_after_same. reflexivity.
  - intros Hroom. unfold deque_append. set (x := mkRequestMetrics _ _ _ _ _ _ _ _).
    set (s1 := run_state meanwhile s) in *.
    destruct (maxlen (requests (self s1))
              <? Z.of_nat (length (items (requests (self s1)) ++ [x]))) eqn:E;
      cbn [items].
    + destruct (items (requests (self s1))) as [|y l] eqn:El.
      * apply Z.ltb_lt in E. cbn in E. lia.
      * cbn [app tail]. apply last_snoc.
    + apply last_snoc.
Qed.

(** ** The log and the window over a session *)

Lemma info_lines_app (l1 l2 : list LogRecord) :
  info_lines (l1 ++ l2) = info_lines l1 ++ info_lines l2.
Proof. apply List.filter_app. Qed.

Lemma info_lines_exec (o : Op) (w : World) :
  info_lines (exec_lines o w) = List.map request_line (inserted_by o w).
Proof.
  destruct o as [m|x| | |e m sc rt ua ip err];
    cbn [exec_lines inserted_by List.map]; try reflexivity.
  - unfold snapshot_lines.
    destruct (Num.gtb (cpu_percent x) 80), (Num.gtb (memory_percent x) 80);
      reflexivity.
  - rewrite info_lines_app. unfold classification_lines.
    destruct (500 <=? sc); [reflexivity|].
    destruct (400 <=? sc); [reflexivity|].
    destruct (Num.gtb rt 10); reflexivity.
Qed.

Lemma info_lines_run (ops : list Op) :
  forall s,
    info_lines (log (world (run_state ops s)))
    = info_lines (log (world s))
      ++ List.map request_line
           (inserted_from (wall (world s)) (reads (world s)) ops).
Proof.
  induction ops as [|o ops IH]; intros s.
  - cbn. now rewrite app_nil_r.
  - cbn [run_state inserted_from]. rewrite IH. cbn [world exec_world log wall reads].
    rewrite info_lines_app, info_lines_exec, List.map_app, <- app_assoc.
    now rewrite <- inserted_by_world.
Qed.

(** X20. The informational lines of the log are the request lines of the
    samples inserted, one for each and in the order of insertion: after any
    sequence of calls, the lines of level INFO written since the collector
    was built are exactly those of the samples handed to [add_request],
    directly or by [log_request]. *)
Theorem X20_one_request_line_per_sample (n : Z) (ops : list Op) (w : World)
    (Hn : 0 <= n) :
  exists s,
    session n ops w = Ok s
    /\ info_lines (log (world s))
       = info_lines (log w) ++ List.map request_line (inserted ops w)
    /\ length (info_lines (log (world s)))
       = (length (info_lines (log w)) + length (inserted ops w))%nat.
Proof.
  destruct (session_facts n ops w Hn) as (s & Hs & E & _ & _).
  exists s. split; [exact Hs|].
  assert (L : info_lines (log (world s))
              = info_lines (log w) ++ List.map request_line (inserted ops w)).
  { rewrite E, info_lines_run. reflexivity. }
  split; [exact L|]. rewrite L, length_app, List.length_map. reflexivity.
Qed.

Lemma X20_witness :
  0 <= 2
  /\ exists s,
       session 2 three_inserts clock0 = Ok s
       /\ length (info_lines (log (world s))) = 3%nat.
Proof.
  split; [lia|].
  destruct (X20_one_request_line_per_sample 2 three_inserts clock0 ltac:(lia))
    as (s & Hs & _ & Hl).
  exists s. split; [exact Hs|]. rewrite Hl. reflexivity.
Defined.

(** X21. Errors age out of the global figures: when the last [n] samples
    inserted into a collector of capacity [n] all have a status code below
    400, [get_stats] reports an error rate of 0 and [get_health_status] does
    not raise the error rate issue, whatever was inserted before. *)
Theorem X21_errors_age_out (n : Z) (ops : list Op) (w : World) (Hn : 0 <= n)
    (Hclean : Forall (fun r => status_code r < 400)
                (lastn (Z.to_nat n) (inserted ops w))) :
  exists s stats s1 h s2,
    session n ops w = Ok s
    /\ get_stats s = Ok (stats, s1)
    /\ get_health_status s = Ok (h, s2)
    /\ (error_rate_percent stats == 0)%Q
    /\ Forall (fun i => match i with High_error_rate _ => False | _ => True end)
         (issues h).
Proof.
  destruct (session_facts n ops w Hn) as (s & Hs & _ & T & _).
  exists s. do 4 eexists. split; [exact Hs|]. split; [apply get_stats_run|].
  split; [apply get_health_status_run|].
  set (stats := stats_of _ _).
  assert (E0 : (error_rate_percent stats == 0)%Q).
  { unfold stats. cbn [stats_of error_rate_percent].
    rewrite (tracks_items _ _ _ T). unfold error_rate_of.
    rewrite filter_none.
    - destruct (0 <? len (lastn (Z.to_nat n) (inserted ops w)));
        [|apply mul_zero_percent].
      change (inject_Z (len (@nil RequestMetrics))) with 0%Q.
      rewrite div_zero. apply mul_zero_percent.
    - eapply Forall_impl; [exact Hclean|]. intros r Hr. unfold is_error.
      apply Z.leb_gt. exact Hr. }
  split; [exact E0|].
  cbn [issues health_of]. unfold rule_issues.
  assert (G : Num.gtb (error_rate_percent stats) 10 = false).
  { destruct (Num.gtb (error_rate_percent stats) 10) eqn:G; [|reflexivity].
    apply gtb_spec in G. rewrite E0 in G. discriminate. }
  rewrite G.
  destruct (Num.gtb (avg_response_time_ms stats) 5000),
    (current_system stats) as [sys|];
    try destruct (Num.gtb (cpu_percent sys) 90), (Num.gtb (memory_percent sys) 90);
    repeat constructor.
Qed.

Lemma X21_witness :
  0 <= 1
  /\ Forall (fun r => status_code r < 400)
       (lastn (Z.to_nat 1) (inserted [Add_request sample_b; Add_request sample_a] clock0))
  /\ exists s stats s1,
       session 1 [Add_request sample_b; Add_request sample_a] clock0 = Ok s
       /\ get_stats s = Ok (stats, s1)
       /\ (error_rate_percent stats == 0)%Q.
Proof.
  assert (Hc : Forall (fun r => status_code r < 400)
                 (lastn (Z.to_nat 1)
                    (inserted [Add_request sample_b; Add_request sample_a] clock0))).
  { repeat constructor. }
  split; [lia|]. split; [exact Hc|].
  destruct (X21_errors_age_out 1 [Add_request sample_b; Add_request sample_a] clock0
              ltac:(lia) Hc)
    as (s & stats & s1 & _ & _ & Hs & Hg & _ & He & _).
  exists s, stats, s1. split; [exact Hs|]. split; [exact Hg|exact He].
Defined.
